(** * The MSSQL lowering registry of ibis and the pandas array kernels

    A shallow embedding of [ibis/backends/mssql/registry.py] (the rules that
    lower ibis operation nodes to SQLAlchemy clause elements for SQL Server)
    and of the [ArrayIndex] kernels of
    [ibis/backends/pandas/execution/arrays.py].

    Python exceptions are modelled by the [result] monad, Python dictionaries
    by [gmap] and Python sets by [gset].  Functions keep the names they have
    in the Python source. *)

From Stdlib Require Import ZArith Ascii String List Lia DecimalString.
From stdpp Require Import base option list strings gmap.

Set Warnings "-register-all".

Local Open Scope string_scope.
Local Open Scope Z_scope.

(** ** Exceptions and the result monad *)

(** The exceptions the embedded code raises or lets through.  Messages are
    left out except for the argument of [NotImplementedError]. *)
Inductive exn : Type :=
| UnsupportedOperationError   (* ibis.common.exceptions *)
| UnsupportedArgumentError    (* ibis.common.exceptions *)
| OperationNotDefinedError    (* ibis.common.exceptions *)
| IbisError                   (* ibis.common.exceptions *)
| NotImplementedError (how : string)
| AssertionError
| AttributeError
| IndexError
| KeyError
| TypeError
| ValueError
| Overflow                    (* decimal *)
| InvalidOperation.           (* decimal *)

Inductive result (A : Type) : Type :=
| Ok (a : A)
| Raise (e : exn).
Arguments Ok {A} a.
Arguments Raise {A} e.

#[global] Instance result_ret : MRet result := fun A a => Ok a.
#[global] Instance result_bind : MBind result := fun A B f m =>
  match m with
  | Ok a => f a
  | Raise e => Raise e
  end.
#[global] Instance result_fmap : FMap result := fun A B f m =>
  match m with
  | Ok a => Ok (f a)
  | Raise e => Raise e
  end.

Definition raises {A} (m : result A) : Prop := exists e, m = Raise e.

(** ** Python values *)

(** [decimal.Decimal]: sign and coefficient in [coefficient], and exponent. *)
Record Decimal : Type := { coefficient : Z; exponent : Z }.

(** [datetime.timedelta(days, seconds, microseconds)], held as its total
    number of microseconds. *)
Definition timedelta (days seconds microseconds : Z) : Z :=
  (days * 86400 + seconds) * 1000000 + microseconds.

(** A [tzinfo] object, by what its [utcoffset] returns for the value it is
    attached to: [None], or a [timedelta]. *)
Record TzInfo : Type := { utcoffset : option Z }.

(** [datetime.datetime]; [tzinfo] is [None] or a [tzinfo] object. *)
Record datetime : Type := {
  year : Z; month : Z; day : Z;
  hour : Z; minute : Z; second : Z; microsecond : Z;
  tzinfo : option TzInfo
}.

Inductive PyValue : Type :=
| PyNone
| PyBool (b : bool)
| PyInt (z : Z)
| PyStr (s : string)
| PyBytes (b : list Byte.byte)
| PyList (l : list PyValue)
| PyDecimal (d : Decimal)
| PyDate (y m d : Z)
| PyDatetime (v : datetime)
| PyTime (h m s us : Z)
| PyUUID (repr : string).      (* a UUID, held by its [str()] *)

(** ** ibis data types and operation nodes *)

Inductive TypeKind : Type :=
| Null | Boolean
| Int8 | Int16 | Int32 | Int64 | Float64
| DecimalT | StringT | Binary | Date | Time
| Timestamp (timezone : option string)
| Interval (unit : string)     (* the unit, by its short code *)
| Array (elt : TypeKind)
| UUID.

Record DataType : Type := { kind : TypeKind; nullable : bool }.

Definition is_boolean (d : DataType) : bool :=
  match kind d with Boolean => true | _ => false end.
Definition is_array (d : DataType) : bool :=
  match kind d with Array _ => true | _ => false end.
Definition is_decimal (d : DataType) : bool :=
  match kind d with DecimalT => true | _ => false end.
Definition is_date (d : DataType) : bool :=
  match kind d with Date => true | _ => false end.
Definition is_timestamp (d : DataType) : bool :=
  match kind d with Timestamp _ => true | _ => false end.
Definition is_time (d : DataType) : bool :=
  match kind d with Time => true | _ => false end.
Definition is_uuid (d : DataType) : bool :=
  match kind d with UUID => true | _ => false end.
Definition is_binary (d : DataType) : bool :=
  match kind d with Binary => true | _ => false end.

(** [dtype.timezone]: only timestamps have the attribute. *)
Definition timezone_of (d : DataType) : result (option string) :=
  match kind d with Timestamp tz => Ok tz | _ => Raise AttributeError end.

(** [dtype.unit.short]: only intervals have the attribute. *)
Definition unit_short (d : DataType) : result string :=
  match kind d with Interval u => Ok u | _ => Raise AttributeError end.

(** [dt.dtype(name)] for the two names the registry uses. *)
Definition dt_dtype (name : string) : result TypeKind :=
  if String.eqb name "int32" then Ok Int32
  else if String.eqb name "float64" then Ok Float64
  else Raise TypeError.

(** Operation nodes ([ibis.expr.operations]).  The kinds the registry's own
    rules inspect have a constructor each; [Op] stands for every other kind,
    by class name.  Units and hash algorithms are held as the strings the
    rules read ([op.unit.short], [op.how]). *)
Inductive Node : Type :=
| Literal (value : PyValue) (dtype : DataType)
| TableColumn (name : string) (dtype : DataType)
| Cast (arg : Node) (to : DataType)
| IfElse (bool_expr true_expr false_null_expr : Node)
| Not (arg : Node)
| Count (arg : Node) (where_ : option Node)
| Sum (arg : Node) (where_ : option Node)
| Mean (arg : Node) (where_ : option Node)
| Min (arg : Node) (where_ : option Node)
| Max (arg : Node) (where_ : option Node)
| StringFind (arg substr : Node) (start end_ : option Node)
| StringLength (arg : Node)
| TimestampTruncate (arg : Node) (unit : string)
| DateTruncate (arg : Node) (unit : string)
| TimestampBucket (arg interval : Node) (offset : option Node)
| HashBytes (arg : Node) (how : string)
| HexDigest (arg : Node) (how : string)
| Round (arg : Node) (digits : option Node)
| TimestampFromUNIX (arg : Node) (unit : string)
| TemporalDelta (cls : string) (left right : Node) (part : string)
| Op (cls : string) (args : list Node).

(** ** SQLAlchemy clause elements *)

Inductive SqlType : Type :=
| SMALLINT | BIGINT | UNIQUEIDENTIFIER
| VARBINARY (length : option string).

Inductive operator : Type := op_eq | op_add | op_sub | op_truediv.

(** A Python value handed to SQLAlchemy where a clause is expected becomes a
    bound parameter; [sa.text] and [sa.literal_column] are rendered verbatim. *)
Inductive ClauseElement : Type :=
| SaNull                                              (* sa.null() *)
| BindParameter (value : PyValue)
| TextClause (text : string)                          (* sa.text *)
| LiteralColumn (text : string)                       (* sa.literal_column *)
| ColumnClause (name : string)
| FunctionCall (name : string) (clauses : list ClauseElement)  (* sa.func.name *)
| BinaryExpression (op : operator) (left right : ClauseElement)
| SaNot (clause : ClauseElement)                      (* sa.not_ *)
| SaCase (whens : list (ClauseElement * ClauseElement)) (else_ : ClauseElement)
| SaCast (clause : ClauseElement) (type_ : SqlType).  (* sa.cast *)

(** Whether a clause reaches the database as text of the statement or as a
    bound parameter. *)
Definition is_verbatim (c : ClauseElement) : bool :=
  match c with TextClause _ | LiteralColumn _ => true | _ => false end.
Definition is_bound_parameter (c : ClauseElement) : bool :=
  match c with BindParameter _ => true | _ => false end.

(** The expression translator [t]: its context flag and its recursive
    [translate], which may raise. *)
Record ExprTranslator : Type := {
  within_where : bool;
  translate : Node -> result ClauseElement
}.

(** A lowering rule, the value type of the registries. *)
Definition Lowering : Type := ExprTranslator -> Node -> result ClauseElement.

(** What the embedded rules use of ibis and Python without its code being in
    the two files embedded here: the type ibis infers for a derived node,
    [Decimal.normalize] (which raises on an overflow or on a signalling
    NaN), [str] on values other than those of [py_str] below,
    and the names the registry imports from the base SQLAlchemy backend. *)
Class Core : Type := {
  infer_dtype : Node -> DataType;
  normalize : Decimal -> result Decimal;
  str_other : PyValue -> string;
  variance_reduction : string -> list (string * string) -> Lowering;
  sqlalchemy_operation_registry : gmap string Lowering;
  sqlalchemy_window_functions_registry : gmap string Lowering
}.

(** [node.dtype]: stored on leaves and casts, inferred elsewhere. *)
Definition dtype `{Core} (n : Node) : DataType :=
  match n with
  | Literal _ d => d
  | TableColumn _ d => d
  | Cast _ d => d
  | _ => infer_dtype n
  end.

(** [str(z)] for a Python int. *)
Definition str_int (z : Z) : string :=
  DecimalString.NilZero.string_of_int (Z.to_int z).

(** [str(v)]. *)
Definition py_str `{Core} (v : PyValue) : string :=
  match v with
  | PyNone => "None"
  | PyBool true => "True"
  | PyBool false => "False"
  | PyInt z => str_int z
  | PyStr s => s
  | PyUUID r => r
  | _ => str_other v
  end.

(** [sa.func.name(clause, ...)]. *)
Definition sa_func (name : string) (clauses : list ClauseElement)
  : ClauseElement := FunctionCall name clauses.

(** ** Temporal units, truncation and bucketing *)

Definition _interval_units : gmap string string :=
  list_to_map [
    ("us", "microsecond");
    ("ms", "millisecond");
    ("s", "second");
    ("m", "minute");
    ("h", "hour");
    ("D", "day");
    ("W", "week");
    ("M", "month");
    ("Q", "quarter");
    ("Y", "year")
  ].

(** [op.arg] and [op.unit.short] of the two truncate kinds. *)
Definition truncate_fields (op : Node) : result (Node * string) :=
  match op with
  | TimestampTruncate a u | DateTruncate a u => Ok (a, u)
  | _ => Raise AttributeError
  end.

Definition _timestamp_truncate (t : ExprTranslator) (op : Node)
  : result ClauseElement :=
  '(op_arg, unit) ← truncate_fields op;
  arg ← translate t op_arg;
  match _interval_units !! unit with
  | None => Raise UnsupportedOperationError
  | Some kw => Ok (FunctionCall "datetrunc" [TextClause kw; arg])
  end.

(** [x is not None]. *)
Definition is_Some_b {A} (x : option A) : bool :=
  match x with Some _ => true | None => false end.

Definition isinstance_Literal (n : Node) : bool :=
  match n with Literal _ _ => true | _ => false end.
Definition isinstance_TableColumn (n : Node) : bool :=
  match n with TableColumn _ _ => true | _ => false end.

(** [node.value]: an attribute of literals. *)
Definition node_value (n : Node) : result PyValue :=
  match n with Literal v _ => Ok v | _ => Raise AttributeError end.

Definition _timestamp_bucket `{Core} (t : ExprTranslator) (op : Node)
  : result ClauseElement :=
  match op with
  | TimestampBucket op_arg op_interval op_offset =>
      unit ← unit_short (dtype op_interval);
      if negb (isinstance_Literal op_interval) then
        Raise UnsupportedOperationError
      else if String.eqb unit "us" || bool_decide (_interval_units !! unit = None) then
        Raise UnsupportedOperationError
      else if is_Some_b op_offset then
        Raise UnsupportedOperationError
      else
        kw ← from_option Ok (Raise KeyError) (_interval_units !! unit);
        let part := LiteralColumn kw in
        v ← node_value op_interval;
        let value := LiteralColumn (py_str v) in
        arg ← translate t op_arg;
        let origin := LiteralColumn "CAST('1970-01-01' AS DATETIME2)" in
        Ok (sa_func "DATE_BUCKET" [part; value; arg; origin])
  | _ => Raise AttributeError
  end.

(** ** Strings: case mapping, slices and [int] *)

Definition ascii_lower (c : ascii) : ascii :=
  let n := N_of_ascii c in
  if ((65 <=? n) && (n <=? 90))%N then ascii_of_N (n + 32) else c.
Definition ascii_upper (c : ascii) : ascii :=
  let n := N_of_ascii c in
  if ((97 <=? n) && (n <=? 122))%N then ascii_of_N (n - 32) else c.

Fixpoint str_map (f : ascii -> ascii) (s : string) : string :=
  match s with
  | EmptyString => EmptyString
  | String c r => String (f c) (str_map f r)
  end.

(** [s.lower()] and [s.upper()] on ASCII text. *)
Definition str_lower : string -> string := str_map ascii_lower.
Definition str_upper : string -> string := str_map ascii_upper.

(** [s[:n]] and [s[-n:]] for [n > 0]. *)
Definition slice_to (n : nat) (s : string) : string := String.substring 0 n s.
Definition slice_last (n : nat) (s : string) : string :=
  String.substring (String.length s - n) n s.

Definition digit_of (c : ascii) : option Z :=
  let n := Z.of_N (N_of_ascii c) in
  if (48 <=? n) && (n <=? 57) then Some (n - 48) else None.

Fixpoint parse_digits (acc : Z) (s : string) : option Z :=
  match s with
  | EmptyString => Some acc
  | String c r => d ← digit_of c; parse_digits (10 * acc + d) r
  end.

(** [int(s)] on an optional sign followed by decimal digits; anything else
    is a [ValueError] (surrounding blanks and underscores, which [int] also
    accepts, do not occur in what the registry parses). *)
Definition py_int (s : string) : result Z :=
  let unsigned (r : string) : result Z :=
    match r with
    | EmptyString => Raise ValueError
    | _ => from_option Ok (Raise ValueError) (parse_digits 0 r)
    end in
  match s with
  | String "+"%char r => unsigned r
  | String "-"%char r => Z.opp <$> unsigned r
  | _ => unsigned s
  end.

(** The [%02d] of a non-negative integer. *)
Definition two_digits (n : Z) : string :=
  if n <? 10 then "0" ++ str_int n else str_int n.

(** The [%06d] of an integer from 0 to 999999, two digits at a time. *)
Definition six_digits (n : Z) : string :=
  two_digits (n / 10000) ++ two_digits (n / 100 mod 100)
    ++ two_digits (n mod 100).

(** [value.strftime("%z")], from what [value.utcoffset()] returns: the
    empty text for [None]; a [ValueError] for an offset that is not
    strictly within a day; otherwise [+HHMM], or [+HHMMSS] when the offset
    has seconds, or [+HHMMSS.ffffff] when it has microseconds. *)
Definition strftime_z (offset : option Z) : result string :=
  match offset with
  | None => Ok ""
  | Some offset =>
      if (timedelta (-1) 0 0 <? offset) && (offset <? timedelta 1 0 0) then
        let sign := if offset <? 0 then "-" else "+" in
        let offset := Z.abs offset in
        let h := offset / timedelta 0 3600 0 in
        let rest := offset mod timedelta 0 3600 0 in
        let m := rest / timedelta 0 60 0 in
        let rest := rest mod timedelta 0 60 0 in
        let s := rest / 1000000 in
        let u := offset mod 1000000 in
        Ok (sign ++ two_digits h ++ two_digits m
              ++ (if negb (u =? 0) then two_digits s ++ "." ++ six_digits u
                  else if negb (s =? 0) then two_digits s
                  else ""))
      else Raise ValueError
  end.

(** ** The rules of the registry *)

(** The Python scalars [1], [0] and [None] given where ibis expects a node
    become literals of the inferred type. *)
Definition int8 : DataType := {| kind := Int8; nullable := true |}.
Definition null : DataType := {| kind := Null; nullable := true |}.
Definition lit_int (z : Z) : Node := Literal (PyInt z) int8.
Definition lit_None : Node := Literal PyNone null.

(** [arg, where = op.args] of the five reductions. *)
Definition reduction_args (op : Node) : result (Node * option Node) :=
  match op with
  | Count a w | Sum a w | Mean a w | Min a w | Max a w => Ok (a, w)
  | _ => Raise ValueError
  end.

Definition _reduction `{Core} (func : ClauseElement -> ClauseElement)
    (cast_type : string) : Lowering :=
  fun t op =>
    '(arg, where_) ← reduction_args op;
    arg ←
      (if is_boolean (dtype arg) then
         if isinstance_TableColumn arg then
           let nullable := nullable (dtype arg) in
           k ← dt_dtype cast_type;
           Ok (Cast arg {| kind := k; nullable := nullable |})
         else
           Ok (IfElse arg (lit_int 1) (lit_int 0))
       else Ok arg);
    let arg :=
      match where_ with
      | Some w => IfElse w arg lit_None
      | None => arg
      end in
    func <$> translate t arg.

Definition _string_find : Lowering :=
  fun t op =>
    match op with
    | StringFind arg substr start _ =>
        sa_arg ← translate t arg;
        sa_substr ← translate t substr;
        match start with
        | Some start =>
            sa_start ← translate t start;
            Ok (BinaryExpression op_sub
                  (sa_func "charindex" [sa_substr; sa_arg; sa_start])
                  (BindParameter (PyInt 1)))
        | None =>
            Ok (BinaryExpression op_sub
                  (sa_func "charindex" [sa_substr; sa_arg])
                  (BindParameter (PyInt 1)))
        end
    | _ => Raise ValueError
    end.

(** [op.args] of the kinds whose arguments are all nodes. *)
Definition op_args (op : Node) : option (list Node) :=
  match op with
  | IfElse c a b => Some [c; a; b]
  | Not a => Some [a]
  | StringLength a => Some [a]
  | Op _ l => Some l
  | _ => None
  end.

Definition _extract (fmt : string) : Lowering :=
  fun t op =>
    match op_args op with
    | Some [arg] =>
        sa_arg ← translate t arg;
        Ok (SaCast (sa_func "datepart" [LiteralColumn fmt; sa_arg]) SMALLINT)
    | _ => Raise ValueError
    end.

Definition _round : Lowering :=
  fun t op =>
    match op with
    | Round op_arg op_digits =>
        sa_arg ← translate t op_arg;
        match op_digits with
        | Some d => d' ← translate t d; Ok (sa_func "round" [sa_arg; d'])
        | None => Ok (sa_func "round" [sa_arg; BindParameter (PyInt 0)])
        end
    | _ => Raise AttributeError
    end.

Definition _timestamp_from_unix (x : ClauseElement) (unit : string)
  : result ClauseElement :=
  if String.eqb unit "s" then
    Ok (sa_func "dateadd"
          [TextClause "s"; x; BindParameter (PyStr "1970-01-01 00:00:00")])
  else if String.eqb unit "ms" then
    Ok (sa_func "dateadd"
          [TextClause "s";
           BinaryExpression op_truediv x (BindParameter (PyInt 1000));
           BindParameter (PyStr "1970-01-01 00:00:00")])
  else Raise UnsupportedOperationError.

Definition _temporal_delta : Lowering :=
  fun t op =>
    match op with
    | TemporalDelta _ op_left op_right part =>
        left ← translate t op_left;
        right ← translate t op_right;
        Ok (sa_func "datediff" [LiteralColumn (str_upper part); right; left])
    | _ => Raise AttributeError
    end.

Definition _not : Lowering :=
  fun t op =>
    match op with
    | Not op_arg =>
        arg ← translate t op_arg;
        if within_where t then Ok (SaNot arg)
        else
          Ok (SaCase
                [(BinaryExpression op_eq arg (BindParameter (PyInt 0)),
                  BindParameter (PyBool true))]
                (BindParameter (PyBool false)))
    | _ => Raise AttributeError
    end.

Definition _len (x : ClauseElement) : ClauseElement :=
  BinaryExpression op_sub
    (sa_func "len"
       [BinaryExpression op_add
          (BinaryExpression op_add (BindParameter (PyStr "A")) x)
          (BindParameter (PyStr "Z"))])
    (BindParameter (PyInt 2)).

(** Iteration over a value: the elements of a sequence, the characters of a
    text, the bytes of binary data; other values are not iterable. *)
Definition py_iter (v : PyValue) : result (list PyValue) :=
  match v with
  | PyList l => Ok l
  | PyStr s =>
      Ok ((fun c => PyStr (String c EmptyString)) <$> list_ascii_of_string s)
  | PyBytes b => Ok ((fun x => PyInt (Z.of_N (Byte.to_N x))) <$> b)
  | _ => Raise TypeError
  end.

(** Attribute reads on the value of a literal. *)
Definition date_fields (v : PyValue) : result (Z * Z * Z) :=
  match v with
  | PyDate y m d => Ok (y, m, d)
  | PyDatetime v => Ok (year v, month v, day v)
  | _ => Raise AttributeError
  end.
Definition time_fields (v : PyValue) : result (Z * Z * Z * Z) :=
  match v with
  | PyTime h m s us => Ok (h, m, s, us)
  | PyDatetime v => Ok (hour v, minute v, second v, microsecond v)
  | _ => Raise AttributeError
  end.
Definition as_datetime (v : PyValue) : result datetime :=
  match v with PyDatetime v => Ok v | _ => Raise AttributeError end.

Definition bind_int (z : Z) : ClauseElement := BindParameter (PyInt z).

Definition _literal `{Core} : Lowering :=
  fun _ op =>
    match op with
    | Literal value dtype =>
        match value with
        | PyNone => Ok SaNull
        | _ =>
            if is_array dtype then
              l ← py_iter value;
              Ok (BindParameter (PyList l))
            else if is_decimal dtype then
              match value with
              | PyDecimal d =>
                  d ← normalize d; Ok (BindParameter (PyDecimal d))
              | _ => Raise AttributeError
              end
            else if is_date dtype then
              '(y, m, d) ← date_fields value;
              Ok (sa_func "datefromparts" [bind_int y; bind_int m; bind_int d])
            else if is_timestamp dtype then
              v ← as_datetime value;
              let args :=
                [bind_int (year v); bind_int (month v); bind_int (day v);
                 bind_int (hour v); bind_int (minute v); bind_int (second v);
                 bind_int (microsecond v)] in
              tz ← timezone_of dtype;
              match tz with
              | Some _ =>
                  match tzinfo v with
                  | None => Raise AssertionError
                  | Some tzinfo =>
                      offset ← strftime_z (utcoffset tzinfo);
                      hour_offset ← py_int (slice_to 3 offset);
                      minute_offset ← py_int (slice_last 2 offset);
                      Ok (sa_func "datetimeoffsetfromparts"
                            (args ++ [bind_int hour_offset;
                                      bind_int minute_offset;
                                      bind_int 6]))
                  end
              | None =>
                  Ok (sa_func "datetime2fromparts" (args ++ [bind_int 6]))
              end
            else if is_time dtype then
              '(h, m, s, us) ← time_fields value;
              Ok (sa_func "timefromparts"
                    [bind_int h; bind_int m; bind_int s; bind_int us;
                     LiteralColumn "0"])
            else if is_uuid dtype then
              Ok (SaCast (BindParameter (PyStr (py_str value))) UNIQUEIDENTIFIER)
            else if is_binary dtype then
              Ok (SaCast (BindParameter value) (VARBINARY (Some "max")))
            else Ok (BindParameter value)
        end
    | _ => Raise AttributeError
    end.

(** [op.arg] and [op.how] of the two hashing kinds. *)
Definition hash_fields (op : Node) : result (Node * string) :=
  match op with
  | HashBytes a how | HexDigest a how => Ok (a, how)
  | _ => Raise AttributeError
  end.

Definition _hashbytes : Lowering :=
  fun translator op =>
    '(op_arg, how) ← hash_fields op;
    arg_formatted ← translate translator op_arg;
    if String.eqb how "md5" || String.eqb how "sha1" then
      Ok (sa_func "hashbytes" [BindParameter (PyStr how); arg_formatted])
    else if String.eqb how "sha256" then
      Ok (sa_func "hashbytes" [BindParameter (PyStr "sha2_256"); arg_formatted])
    else if String.eqb how "sha512" then
      Ok (sa_func "hashbytes" [BindParameter (PyStr "sha2_512"); arg_formatted])
    else Raise (NotImplementedError how).

Definition _hexdigest : Lowering :=
  fun translator op =>
    '(op_arg, how) ← hash_fields op;
    arg_formatted ← translate translator op_arg;
    hashbinary ←
      (if String.eqb how "md5" || String.eqb how "sha1" then
         Ok (sa_func "hashbytes" [BindParameter (PyStr how); arg_formatted])
       else if String.eqb how "sha256" then
         Ok (sa_func "hashbytes"
               [BindParameter (PyStr "sha2_256"); arg_formatted])
       else if String.eqb how "sha512" then
         Ok (sa_func "hashbytes"
               [BindParameter (PyStr "sha2_512"); arg_formatted])
       else Raise (NotImplementedError how));
    Ok (sa_func "lower"
          [sa_func "convert"
             [LiteralColumn "VARCHAR(MAX)"; hashbinary; BindParameter (PyInt 2)]]).

(** Modelled from the spec: [fixed_arity] and [unary] are imported from the
    base SQLAlchemy backend, whose code is not among the embedded files.
    Following section 2 of the specification (children are translated before
    the parent), the rule they build translates the arguments of the
    operation in order and applies the function to the results; an argument
    count other than [arity] is an [IbisError]. *)
Definition fixed_arity (sa_fn : list ClauseElement -> result ClauseElement)
    (arity : nat) : Lowering :=
  fun t op =>
    match op_args op with
    | Some args =>
        if bool_decide (arity <> List.length args) then Raise IbisError
        else trans_args ← mapM (translate t) args; sa_fn trans_args
    | None => Raise TypeError
    end.

Definition unary (sa_fn : list ClauseElement -> result ClauseElement)
  : Lowering := fixed_arity sa_fn 1.

(** A Python function of one, two or three positional arguments, called
    with the translated arguments. *)
Definition fn1 (f : ClauseElement -> ClauseElement)
  : list ClauseElement -> result ClauseElement :=
  fun xs => match xs with [x] => Ok (f x) | _ => Raise TypeError end.
Definition fn2 (f : ClauseElement -> ClauseElement -> ClauseElement)
  : list ClauseElement -> result ClauseElement :=
  fun xs => match xs with [x; y] => Ok (f x y) | _ => Raise TypeError end.
(** A [sa.func.name] takes any number of them. *)
Definition fn (name : string) : list ClauseElement -> result ClauseElement :=
  fun xs => Ok (sa_func name xs).

(** ** The registry *)

(** [d.update(other)]: the entries of [other] replace those of [d]. *)
Definition dict_update {V} (d other : gmap string V) : gmap string V :=
  other ∪ d.

(** The dictionary literal the registry is updated with; operation classes
    are keyed by their names. *)
Definition mssql_overrides `{Core} : gmap string Lowering :=
  list_to_map [
    ("Not", _not);
    (* aggregate methods *)
    ("Count", _reduction (fun x => sa_func "count" [x]) "int32");
    ("Max", _reduction (fun x => sa_func "max" [x]) "int32");
    ("Min", _reduction (fun x => sa_func "min" [x]) "int32");
    ("Sum", _reduction (fun x => sa_func "sum" [x]) "int32");
    ("Mean", _reduction (fun x => sa_func "avg" [x]) "float64");
    ("IfElse", fixed_arity (fn "iif") 3);
    (* string methods *)
    ("Capitalize", unary (fn1 (fun arg =>
        sa_func "concat"
          [sa_func "upper" [sa_func "substring" [arg; bind_int 1; bind_int 1]];
           sa_func "lower"
             [sa_func "substring"
                [arg; bind_int 2;
                 BinaryExpression op_sub (_len arg) (bind_int 1)]]])));
    ("LStrip", unary (fn "ltrim"));
    ("Lowercase", unary (fn "lower"));
    ("RStrip", unary (fn "rtrim"));
    ("Repeat", fixed_arity (fn "replicate") 2);
    ("Reverse", unary (fn "reverse"));
    ("StringFind", _string_find);
    ("StringLength", unary (fn1 _len));
    ("StringReplace", fixed_arity (fn "replace") 3);
    ("Strip", unary (fn "trim"));
    ("Uppercase", unary (fn "upper"));
    (* math *)
    ("Abs", unary (fn "abs"));
    ("Acos", unary (fn "acos"));
    ("Asin", unary (fn "asin"));
    ("Atan2", fixed_arity (fn "atn2") 2);
    ("Atan", unary (fn "atan"));
    ("Ceil", unary (fn "ceiling"));
    ("Cos", unary (fn "cos"));
    ("Floor", unary (fn "floor"));
    ("FloorDivide", fixed_arity (fn2 (fun left right =>
        sa_func "floor" [BinaryExpression op_truediv left right])) 2);
    ("Power", fixed_arity (fn "power") 2);
    ("Sign", unary (fn "sign"));
    ("Sin", unary (fn "sin"));
    ("Sqrt", unary (fn "sqrt"));
    ("Tan", unary (fn "tan"));
    ("Round", _round);
    ("RandomScalar", fixed_arity (fn "RAND") 0);
    ("Ln", fixed_arity (fn "log") 1);
    ("Log", fixed_arity (fn2 (fun x p => sa_func "log" [x; p])) 2);
    ("Log2", fixed_arity (fn1 (fun x => sa_func "log" [x; bind_int 2])) 1);
    ("Log10", fixed_arity (fn1 (fun x => sa_func "log" [x; bind_int 10])) 1);
    ("StandardDev", variance_reduction "stdev" [("sample", ""); ("pop", "p")]);
    ("Variance", variance_reduction "var" [("sample", ""); ("pop", "p")]);
    (* timestamp methods *)
    ("TimestampNow", fixed_arity (fn "GETDATE") 0);
    ("ExtractYear", _extract "year");
    ("ExtractMonth", _extract "month");
    ("ExtractDay", _extract "day");
    ("ExtractDayOfYear", _extract "dayofyear");
    ("ExtractHour", _extract "hour");
    ("ExtractMinute", _extract "minute");
    ("ExtractSecond", _extract "second");
    ("ExtractMillisecond", _extract "millisecond");
    ("ExtractWeekOfYear", _extract "iso_week");
    ("DayOfWeekIndex", fixed_arity (fn1 (fun x =>
        BinaryExpression op_sub
          (sa_func "datepart" [TextClause "weekday"; x]) (bind_int 1))) 1);
    ("ExtractEpochSeconds", fixed_arity (fn1 (fun x =>
        SaCast
          (sa_func "datediff"
             [TextClause "s"; BindParameter (PyStr "1970-01-01 00:00:00"); x])
          BIGINT)) 1);
    ("TimestampFromUNIX", fun t op =>
        match op with
        | TimestampFromUNIX op_arg unit =>
            x ← translate t op_arg; _timestamp_from_unix x unit
        | _ => Raise AttributeError
        end);
    ("DateFromYMD", fixed_arity (fn "datefromparts") 3);
    ("TimestampFromYMDHMS", fixed_arity (fun xs =>
        match xs with
        | [y; m; d; h; min; s] =>
            Ok (sa_func "datetimefromparts" [y; m; d; h; min; s; bind_int 0])
        | _ => Raise TypeError
        end) 6);
    ("TimeFromHMS", fixed_arity (fun xs =>
        match xs with
        | [h; m; s] =>
            Ok (sa_func "timefromparts"
                  [h; m; s; bind_int 0; LiteralColumn "0"])
        | _ => Raise TypeError
        end) 3);
    ("TimestampTruncate", _timestamp_truncate);
    ("DateTruncate", _timestamp_truncate);
    ("TimestampBucket", _timestamp_bucket);
    ("Hash", unary (fn "checksum"));
    ("HashBytes", _hashbytes);
    ("HexDigest", _hexdigest);
    ("ExtractMicrosecond", fixed_arity (fn1 (fun arg =>
        sa_func "datepart" [LiteralColumn "microsecond"; arg])) 1);
    ("TimeDelta", _temporal_delta);
    ("DateDelta", _temporal_delta);
    ("TimestampDelta", _temporal_delta);
    ("Literal", _literal)
  ].

Definition _invalid_operations : gset string :=
  {[ "RPad"; "LPad";
     "BitAnd"; "BitOr"; "BitXor"; "GroupConcat";
     "NthValue" ]}.

(** The registry after the two updates, before the comprehension. *)
Definition operation_registry_updated `{Core} : gmap string Lowering :=
  dict_update
    (dict_update sqlalchemy_operation_registry
                 sqlalchemy_window_functions_registry)
    mssql_overrides.

(** The final registry: [{k: v for k, v in ... if k not in
    _invalid_operations}]. *)
Definition operation_registry `{Core} : gmap string Lowering :=
  filter (fun kv => kv.1 ∉ _invalid_operations) operation_registry_updated.

(** Modelled from the spec: the lookup of a rule by the compiler, which is
    not among the embedded files.  Section 4.1 of the specification gives it
    as [resolve(kind) -> LoweringFunction | Error(UnsupportedOperation)]. *)
Definition resolve `{Core} (cls : string) : result Lowering :=
  match operation_registry !! cls with
  | Some rule => Ok rule
  | None => Raise UnsupportedOperationError
  end.

(** ** What the emitted clauses compute on the server

    A reading of the clause elements emitted by [_len], [_not],
    [_string_find] and [_hexdigest], after what the source says of the
    T-SQL functions they call: [LEN] does not count trailing spaces
    (docstring of [_len]); style [2] of [CONVERT] renders binary data in
    hexadecimal without the leading [0x], in upper case (comments of
    [_hexdigest]).  [CHARINDEX] and [HASHBYTES] are left to the server. *)

Inductive SqlValue : Type :=
| VNull
| VInt (z : Z)
| VStr (s : string)
| VBin (b : list Byte.byte)
| VBool (b : bool)             (* the outcome of a predicate *)
| VText (sql : string).        (* a keyword or type name written verbatim *)

Record Server : Type := {
  column : string -> SqlValue;
  charindex : string -> string -> option Z -> Z;
  hashbytes : string -> SqlValue -> list Byte.byte
}.

(** The text without its trailing spaces. *)
Fixpoint rstrip_spaces (s : string) : string :=
  match s with
  | EmptyString => EmptyString
  | String c r =>
      match rstrip_spaces r with
      | EmptyString =>
          if Ascii.eqb c " " then EmptyString else String c EmptyString
      | r' => String c r'
      end
  end.

(** T-SQL [LEN]. *)
Definition sql_len (s : string) : Z :=
  Z.of_nat (String.length (rstrip_spaces s)).

Definition hex_digit_upper (n : N) : ascii :=
  match String.get (N.to_nat n) "0123456789ABCDEF" with
  | Some c => c
  | None => "0"%char
  end.

Fixpoint hex_upper (b : list Byte.byte) : string :=
  match b with
  | [] => EmptyString
  | x :: r =>
      let n := Byte.to_N x in
      String (hex_digit_upper (n / 16))
        (String (hex_digit_upper (n mod 16)) (hex_upper r))
  end.

Definition bind_value (v : PyValue) : option SqlValue :=
  match v with
  | PyNone => Some VNull
  | PyBool b => Some (VInt (if b then 1 else 0))
  | PyInt z => Some (VInt z)
  | PyStr s => Some (VStr s)
  | PyBytes b => Some (VBin b)
  | _ => None
  end.

Definition sql_binary (o : operator) (a b : SqlValue) : option SqlValue :=
  match o, a, b with
  | _, VNull, _ | _, _, VNull => Some VNull
  | op_add, VStr x, VStr y => Some (VStr (x ++ y))
  | op_add, VInt x, VInt y => Some (VInt (x + y))
  | op_sub, VInt x, VInt y => Some (VInt (x - y))
  | op_truediv, VInt x, VInt y =>
      if y =? 0 then None else Some (VInt (Z.quot x y))
  | op_eq, VInt x, VInt y => Some (VBool (x =? y))
  | op_eq, VStr x, VStr y => Some (VBool (String.eqb x y))
  | _, _, _ => None
  end.

Definition sql_call (srv : Server) (name : string) (vs : list SqlValue)
  : option SqlValue :=
  if String.eqb name "len" then
    match vs with
    | [VStr s] => Some (VInt (sql_len s))
    | [VNull] => Some VNull
    | _ => None
    end
  else if String.eqb name "lower" then
    match vs with
    | [VStr s] => Some (VStr (str_lower s))
    | [VNull] => Some VNull
    | _ => None
    end
  else if String.eqb name "convert" then
    match vs with
    | [_; VBin b; VInt 2] => Some (VStr (hex_upper b))
    | [_; VNull; VInt 2] => Some VNull
    | _ => None
    end
  else if String.eqb name "hashbytes" then
    match vs with
    | [VStr algo; VNull] => Some VNull
    | [VStr algo; x] => Some (VBin (hashbytes srv algo x))
    | _ => None
    end
  else if String.eqb name "charindex" then
    match vs with
    | [VStr sub; VStr s] => Some (VInt (charindex srv sub s None))
    | [VStr sub; VStr s; VInt start] =>
        Some (VInt (charindex srv sub s (Some start)))
    | _ => None
    end
  else None.

Fixpoint sql_eval (srv : Server) (c : ClauseElement) : option SqlValue :=
  match c with
  | SaNull => Some VNull
  | BindParameter v => bind_value v
  | TextClause text => Some (VText text)
  | LiteralColumn text => Some (VText text)
  | ColumnClause name => Some (column srv name)
  | FunctionCall name clauses =>
      vs ← mapM (sql_eval srv) clauses; sql_call srv name vs
  | BinaryExpression o l r =>
      a ← sql_eval srv l; b ← sql_eval srv r; sql_binary o a b
  | SaNot x =>
      v ← sql_eval srv x;
      match v with
      | VBool b => Some (VBool (negb b))
      | VNull => Some VNull
      | _ => None
      end
  | SaCase whens else_ =>
      (fix first_true (ws : list (ClauseElement * ClauseElement)) :=
         match ws with
         | [] => sql_eval srv else_
         | (cond, res) :: ws' =>
             v ← sql_eval srv cond;
             match v with
             | VBool true => sql_eval srv res
             | VBool false | VNull => first_true ws'
             | _ => None
             end
         end) whens
  | SaCast x _ => sql_eval srv x
  end.

Definition is_lower_hex (c : ascii) : bool :=
  let n := N_of_ascii c in
  (((48 <=? n) && (n <=? 57)) || ((97 <=? n) && (n <=? 102)))%N.

Fixpoint str_forall (p : ascii -> bool) (s : string) : bool :=
  match s with
  | EmptyString => true
  | String c r => p c && str_forall p r
  end.

(** ** The pandas kernels of [ArrayIndex] *)

(** [len(v)] and [v[index]] on a sequence (a Python list or a numpy array,
    both held as [PyList]); indexing follows Python: a negative index counts
    from the end, and an index outside [-len, len) is an [IndexError]. *)
Definition py_len (v : PyValue) : result Z :=
  match v with
  | PyList l => Ok (Z.of_nat (List.length l))
  | _ => Raise TypeError
  end.

Definition py_getitem (v : PyValue) (index : Z) : result PyValue :=
  match v with
  | PyList l =>
      let n := Z.of_nat (List.length l) in
      let i := if index <? 0 then index + n else index in
      if (i <? 0) || (n <=? i) then Raise IndexError
      else from_option Ok (Raise IndexError) (l !! Z.to_nat i)
  | _ => Raise TypeError
  end.

(** [pd.Series.apply]: the function is called on every cell in turn. *)
Definition series_apply (f : PyValue -> result PyValue)
    (data : list PyValue) : result (list PyValue) :=
  mapM f data.

Definition execute_array_index (data : list PyValue) (index : Z)
  : result (list PyValue) :=
  series_apply
    (fun array =>
       lo ← py_len array;
       if - lo <=? index then
         hi ← py_len array;
         if index <? hi then py_getitem array index else Ok PyNone
       else Ok PyNone)
    data.

(** [try: return data[index] except IndexError: return None]; the kernel is
    registered for a list or a numpy array. *)
Definition execute_array_index_scalar (data : list PyValue) (index : Z)
  : result PyValue :=
  match py_getitem (PyList data) index with
  | Ok v => Ok v
  | Raise IndexError => Ok PyNone
  | Raise e => Raise e
  end.

(** ** A translator and nodes to run the rules on *)

(** A translator for the nodes the examples use: column references become
    column clauses, literals bound parameters (null for [None]), and [IfElse]
    the call of [iif] the registry has for it; every other node is left
    without a rule. *)
Fixpoint sample_translate (n : Node) : result ClauseElement :=
  match n with
  | TableColumn name _ => Ok (ColumnClause name)
  | Literal PyNone _ => Ok SaNull
  | Literal v _ => Ok (BindParameter v)
  | IfElse c a b =>
      c' ← sample_translate c;
      a' ← sample_translate a;
      b' ← sample_translate b;
      Ok (sa_func "iif" [c'; a'; b'])
  | _ => Raise OperationNotDefinedError
  end.

Definition column_translator (within : bool) : ExprTranslator :=
  {| within_where := within; translate := sample_translate |}.

Definition timestamp : DataType :=
  {| kind := Timestamp None; nullable := true |}.
Definition ts_col : Node := TableColumn "ts" timestamp.

(** A [Core] that infers the null type and has empty base registries. *)
Definition plain_core : Core :=
  {| infer_dtype := fun _ => null;
     normalize := fun d => Ok d;
     str_other := fun _ => "";
     variance_reduction := fun _ _ _ _ => Raise OperationNotDefinedError;
     sqlalchemy_operation_registry := ∅;
     sqlalchemy_window_functions_registry := ∅ |}.

Definition interval_of (unit : string) : DataType :=
  {| kind := Interval unit; nullable := true |}.

(** The date-part keywords of the ten units, as documented. *)
Definition documented_units : list (string * string) :=
  [("us", "microsecond"); ("ms", "millisecond"); ("s", "second");
   ("m", "minute"); ("h", "hour"); ("D", "day"); ("W", "week");
   ("M", "month"); ("Q", "quarter"); ("Y", "year")].

(** The conditional [_not] emits outside a predicate. *)
Definition case_is_zero (a : ClauseElement) : ClauseElement :=
  SaCase [(BinaryExpression op_eq a (BindParameter (PyInt 0)),
           BindParameter (PyBool true))]
         (BindParameter (PyBool false)).

(** The three steps of section 4.4 of the specification, in its words.
    Step 1: a boolean argument is cast to the numeric [target], keeping the
    nullability, when it is a column reference, and is otherwise wrapped in a
    conditional producing 1 or 0. *)
Definition coerce_boolean `{Core} (target : TypeKind) (arg : Node) : Node :=
  if is_boolean (dtype arg) then
    if isinstance_TableColumn arg
    then Cast arg {| kind := target; nullable := nullable (dtype arg) |}
    else IfElse arg (lit_int 1) (lit_int 0)
  else arg.

(** Step 2: a filter predicate masks the argument with null. *)
Definition mask_filter (where_ : option Node) (arg : Node) : Node :=
  match where_ with
  | Some predicate => IfElse predicate arg lit_None
  | None => arg
  end.

(** Step 3: the aggregate [agg] is applied to the translated result. *)
Definition reduction_spec `{Core} (agg : string) (target : TypeKind)
    (t : ExprTranslator) (arg : Node) (where_ : option Node)
  : result ClauseElement :=
  x ← translate t (mask_filter where_ (coerce_boolean target arg));
  Ok (FunctionCall agg [x]).

Definition boolean : DataType := {| kind := Boolean; nullable := true |}.
Definition flag_col : Node := TableColumn "flag" boolean.

(** The names section 4.8 of the specification gives to the four
    algorithms on the dialect's side. *)
Definition dialect_algorithms : list (string * string) :=
  [("md5", "md5"); ("sha1", "sha1");
   ("sha256", "sha2_256"); ("sha512", "sha2_512")].

(** The clause [_hexdigest] wraps around the binary hash. *)
Definition hex_of (hashbinary : ClauseElement) : ClauseElement :=
  FunctionCall "lower"
    [FunctionCall "convert"
       [LiteralColumn "VARCHAR(MAX)"; hashbinary; BindParameter (PyInt 2)]].

(** A [Core] whose base registry has a rule for [RPad] and whose window
    registry has one for [NthValue]. *)
Definition padded_core : Core :=
  {| infer_dtype := fun _ => null;
     normalize := fun d => Ok d;
     str_other := fun _ => "";
     variance_reduction := fun _ _ _ _ => Raise OperationNotDefinedError;
     sqlalchemy_operation_registry := {[ "RPad" := fixed_arity (fn "rpad") 3 ]};
     sqlalchemy_window_functions_registry :=
       {[ "NthValue" := fixed_arity (fn "nth_value") 2 ]} |}.

(** The two offsets [_literal] reads off [strftime("%z")]. *)
Definition parsed_offset (off : option Z) : result (Z * Z) :=
  offset ← strftime_z off;
  hour_offset ← py_int (slice_to 3 offset);
  minute_offset ← py_int (slice_last 2 offset);
  Ok (hour_offset, minute_offset).

(** What they are in terms of the offset in microseconds: the hours,
    rounded towards zero and signed, and the minutes, unsigned; when the
    offset has seconds or microseconds, the text ends with them and its last
    two digits are read instead of the minutes. *)
Definition offset_parts (off : Z) : Z * Z :=
  let a := Z.abs off in
  let u := a mod 1000000 in
  let s := (a mod 60000000) / 1000000 in
  let m := (a mod 3600000000) / 60000000 in
  (Z.quot off 3600000000,
   if negb (u =? 0) then u mod 100
   else if negb (s =? 0) then s
   else m).

(** [p] holds of the naturals below [n]. *)
Fixpoint below (n : nat) (p : Z -> bool) : bool :=
  match n with
  | O => true
  | S k => p (Z.of_nat k) && below k p
  end.

(** [%02d] gives two characters that [int] reads back. *)
Definition two_digits_ok (n : Z) : bool :=
  match two_digits n with
  | String c1 (String c2 EmptyString) =>
      match parse_digits 0 (two_digits n), py_int (two_digits n) with
      | Some v, Ok w => (v =? n) && (w =? n)
      | _, _ => false
      end
  | _ => false
  end.

(** A timezone-aware timestamp type and a value at UTC+05:30. *)
Definition timestamp_tz : DataType :=
  {| kind := Timestamp (Some "Asia/Kolkata"); nullable := true |}.
Definition noon (tz : option TzInfo) : datetime :=
  {| year := 2024; month := 3; day := 5;
     hour := 12; minute := 0; second := 0; microsecond := 250;
     tzinfo := tz |}.
(** The timezone at [minutes] minutes east of UTC. *)
Definition fixed_offset (minutes : Z) : TzInfo :=
  {| utcoffset := Some (timedelta 0 (60 * minutes) 0) |}.

(** The element of [array] at [index], counted from the end when [index]
    is negative, and [None] when [index] is outside [-len, len). *)
Definition array_index_spec (array : list PyValue) (index : Z) : PyValue :=
  let n := Z.of_nat (List.length array) in
  if (- n <=? index) && (index <? n) then
    default PyNone
      (array !! Z.to_nat (if index <? 0 then index + n else index))
  else PyNone.

(** The function [execute_array_index] applies to every cell. *)
Definition index_cell (index : Z) (array : PyValue) : result PyValue :=
  lo ← py_len array;
  if - lo <=? index then
    hi ← py_len array;
    if index <? hi then py_getitem array index else Ok PyNone
  else Ok PyNone.

(** ** Further definitions for the properties of the rest of the code *)

(** The texts a clause carries into the statement verbatim, through
    [sa.text] or [sa.literal_column]. *)
Fixpoint verbatim_texts (c : ClauseElement) : list string :=
  match c with
  | TextClause text | LiteralColumn text => [text]
  | FunctionCall _ clauses => flat_map verbatim_texts clauses
  | BinaryExpression _ l r => (verbatim_texts l ++ verbatim_texts r)%list
  | SaNot x | SaCast x _ => verbatim_texts x
  | SaCase whens else_ =>
      (flat_map (fun w => match w with
                          | (cond, res) =>
                              verbatim_texts cond ++ verbatim_texts res
                          end) whens
       ++ verbatim_texts else_)%list
  | SaNull | BindParameter _ | ColumnClause _ => []
  end.


(** The rule the registry has for [TimestampFromUNIX], a lambda in the
    dictionary literal. *)
Definition timestamp_from_unix_rule : Lowering :=
  fun t op =>
    match op with
    | TimestampFromUNIX op_arg unit =>
        x ← translate t op_arg; _timestamp_from_unix x unit
    | _ => Raise AttributeError
    end.

(** The kinds the registry lowers with [_extract], with the date part of
    each. *)
Definition extract_parts : list (string * string) :=
  [("ExtractYear", "year"); ("ExtractMonth", "month"); ("ExtractDay", "day");
   ("ExtractDayOfYear", "dayofyear"); ("ExtractHour", "hour");
   ("ExtractMinute", "minute"); ("ExtractSecond", "second");
   ("ExtractMillisecond", "millisecond"); ("ExtractWeekOfYear", "iso_week")].

(** A translator that has no rule for anything. *)
Definition failing_translator : ExprTranslator :=
  {| within_where := false;
     translate := fun _ => Raise OperationNotDefinedError |}.


(** The datetime [v] with a [tzinfo] whose UTC offset is [off]
    microseconds. *)
Definition at_offset (v : datetime) (off : Z) : datetime :=
  {| year := year v; month := month v; day := day v;
     hour := hour v; minute := minute v; second := second v;
     microsecond := microsecond v;
     tzinfo := Some {| utcoffset := Some off |} |}.

(** ** The other pandas kernels

    Arrays are one-dimensional: a Python list or a numpy array of elements
    of one type, held as a list of values. *)

(** A bound of a slice on a sequence of [n] elements: a negative bound
    counts from the end, and bounds are clipped to [0, n]. *)
Definition slice_bound (n i : Z) : Z :=
  if i <? 0 then Z.max (i + n) 0 else Z.min i n.

(** [l[start:stop]], with [stop] possibly [None]. *)
Definition py_slice (l : list PyValue) (start : Z) (stop : option Z)
  : list PyValue :=
  let n := Z.of_nat (List.length l) in
  let lo := slice_bound n start in
  let hi := match stop with Some s => slice_bound n s | None => n end in
  take (Z.to_nat (hi - lo)) (drop (Z.to_nat lo) l).

(** [operator.itemgetter(slice(start, stop))] on a cell. *)
Definition py_getslice (start : Z) (stop : option Z) (v : PyValue)
  : result PyValue :=
  match v with
  | PyList l => Ok (PyList (py_slice l start stop))
  | _ => Raise TypeError
  end.

Definition execute_array_length (data : list PyValue)
  : result (list PyValue) :=
  series_apply (fun v => PyInt <$> py_len v) data.

Definition execute_array_length_scalar (data : list PyValue) : Z :=
  Z.of_nat (List.length data).

Definition execute_array_slice (data : list PyValue) (start : Z)
    (stop : option Z) : result (list PyValue) :=
  series_apply (py_getslice start stop) data.

Definition execute_array_slice_scalar (data : list PyValue) (start : Z)
    (stop : option Z) : list PyValue :=
  py_slice data start stop.

(** Whether no element of an array is itself a sequence. *)
Definition is_flat (l : list PyValue) : bool :=
  forallb (fun v => match v with PyList _ => false | _ => true end) l.



(** The arrays that [np.concatenate] joins must have a dimension: a cell
    that is not a sequence is a [ValueError]. *)
Definition as_array (v : PyValue) : result (list PyValue) :=
  match v with
  | PyList l => Ok l
  | _ => Raise ValueError
  end.

(** [np.concatenate(args)] on the cells of one row, each a one-dimensional
    array: the arrays end to end.  (A cell with nested sequences has further
    dimensions in numpy, which must then agree between the cells.) *)
Definition np_concatenate (args : list PyValue) : result PyValue :=
  arrays ← mapM as_array args; Ok (PyList (List.concat arrays)).

(** The rows [map(f, first, ...rest)] calls [f] on: one element of each
    series, until one of them is exhausted. *)
Fixpoint zip_rows (first : list PyValue) (rest : list (list PyValue))
  : list (list PyValue) :=
  match first with
  | [] => []
  | x :: first' =>
      match mapM (fun series : list PyValue => head series) rest with
      | Some heads => (x :: heads) :: zip_rows first' (tail <$> rest)
      | None => []
      end
  end.

Definition _concat_iterables_to_series (first : list PyValue)
    (rest : list (list PyValue)) : result (list PyValue) :=
  if forallb (fun series => (List.length series =? List.length first)%nat) rest
  then mapM np_concatenate (zip_rows first rest)
  else Raise AssertionError.

Definition execute_array_concat_series (first second : list PyValue)
    (args : list (list PyValue)) : result (list PyValue) :=
  _concat_iterables_to_series first (second :: args).



Definition execute_array_concat_scalar (left right : list PyValue)
    (args : list (list PyValue)) : list PyValue :=
  List.concat (left :: right :: args).

(** [list(itertools.chain.from_iterable(v))]. *)
Definition chain_from_iterable (v : PyValue) : result PyValue :=
  elements ← py_iter v;
  parts ← mapM py_iter elements;
  Ok (PyList (List.concat parts)).

(** [data.map(f, na_action="ignore")]: null cells are passed over. *)
Definition series_map_ignore_na (f : PyValue -> result PyValue)
    (data : list PyValue) : result (list PyValue) :=
  mapM (fun v => match v with PyNone => Ok PyNone | _ => f v end) data.

Definition execute_array_flatten (data : list PyValue)
  : result (list PyValue) :=
  series_map_ignore_na chain_from_iterable data.



(** A cell of a column of arrays of arrays: null, or an array whose
    elements are arrays. *)
Definition nested_cell (c : option (list (list PyValue))) : PyValue :=
  match c with
  | None => PyNone
  | Some parts => PyList (PyList <$> parts)
  end.

(** A server whose columns are all null. *)
Definition null_server : Server :=
  {| column := fun _ => VNull;
     charindex := fun _ _ _ => 0;
     hashbytes := fun _ _ => [] |}.

(** * Properties *)

Lemma interval_units_documented (unit kw : string) :
  In (unit, kw) documented_units -> _interval_units !! unit = Some kw.
Proof.
  unfold documented_units; simpl.
  intros H; repeat (destruct H as [H | H]; [inversion H; subst; reflexivity |]).
  destruct H.
Qed.

Lemma interval_units_complete (unit kw : string) :
  _interval_units !! unit = Some kw -> In (unit, kw) documented_units.
Proof.
  intros H. apply elem_of_list_to_map_2 in H.
  apply list_elem_of_In in H. exact H.
Qed.

(** ** Truncation *)

(** C1, as the specification states it, fails on the unit "us": the unit is
    a key of [_interval_units], and [_timestamp_truncate] only rejects units
    that are not; truncating a timestamp column to microseconds emits
    [datetrunc(microsecond, ts)] and raises nothing. *)
Lemma truncate_us_succeeds :
  _timestamp_truncate (column_translator false) (TimestampTruncate ts_col "us")
    = Ok (FunctionCall "datetrunc" [TextClause "microsecond"; ColumnClause "ts"])
  /\ _timestamp_truncate (column_translator false) (TimestampTruncate ts_col "us")
    <> Raise UnsupportedOperationError.
Proof. split; [reflexivity | discriminate]. Qed.

(** C1 (amended): for both truncate kinds, a unit that is not a key of the
    interval-unit map always fails, with [UnsupportedOperationError] once the
    operand has been translated; every unit of the map, microsecond ("us")
    included, succeeds and emits [datetrunc] with the documented keyword as a
    verbatim text clause, not a bound parameter. *)
Theorem truncate_lowering (t : ExprTranslator) (op arg : Node) (unit : string) :
  op = TimestampTruncate arg unit \/ op = DateTruncate arg unit ->
  (_interval_units !! unit = None -> raises (_timestamp_truncate t op)) /\
  (forall a, translate t arg = Ok a ->
     (_interval_units !! unit = None ->
        _timestamp_truncate t op = Raise UnsupportedOperationError) /\
     (forall kw, In (unit, kw) documented_units ->
        _timestamp_truncate t op
          = Ok (FunctionCall "datetrunc" [TextClause kw; a])
        /\ is_verbatim (TextClause kw) = true
        /\ is_bound_parameter (TextClause kw) = false)).
Proof.
  intros Hop.
  assert (Heq : _timestamp_truncate t op =
                (a ← translate t arg;
                 match _interval_units !! unit with
                 | None => Raise UnsupportedOperationError
                 | Some kw => Ok (FunctionCall "datetrunc" [TextClause kw; a])
                 end)).
  { destruct Hop as [-> | ->]; reflexivity. }
  rewrite Heq. split.
  - intros Hnone. rewrite Hnone.
    destruct (translate t arg) as [a | e]; [exists UnsupportedOperationError | exists e];
      reflexivity.
  - intros a Ha. rewrite Ha. split.
    + intros Hnone. rewrite Hnone. reflexivity.
    + intros kw Hin. apply interval_units_documented in Hin.
      rewrite Hin. repeat split.
Qed.

Lemma truncate_lowering_witness :
  _timestamp_truncate (column_translator true) (DateTruncate ts_col "Q")
    = Ok (FunctionCall "datetrunc" [TextClause "quarter"; ColumnClause "ts"])
  /\ _timestamp_truncate (column_translator true) (DateTruncate ts_col "ns")
    = Raise UnsupportedOperationError.
Proof.
  split.
  - apply (proj2 (truncate_lowering (column_translator true)
                    (DateTruncate ts_col "Q") ts_col "Q" (or_intror eq_refl))
             (ColumnClause "ts") eq_refl).
    simpl. tauto.
  - apply (proj2 (truncate_lowering (column_translator true)
                    (DateTruncate ts_col "ns") ts_col "ns" (or_intror eq_refl))
             (ColumnClause "ts") eq_refl).
    reflexivity.
Defined.

(** ** Bucketing *)

(** C2, as the specification states it, fails on the kind of the error: a
    bucket whose interval is a column, not a literal, is rejected with
    [UnsupportedOperationError], the one exception [_timestamp_bucket]
    raises, and not with [UnsupportedArgumentError]. *)
Lemma bucket_non_literal_error_kind :
  @_timestamp_bucket plain_core (column_translator false)
     (TimestampBucket ts_col (TableColumn "step" (interval_of "s")) None)
    = Raise UnsupportedOperationError
  /\ @_timestamp_bucket plain_core (column_translator false)
     (TimestampBucket ts_col (TableColumn "step" (interval_of "s")) None)
    <> Raise UnsupportedArgumentError.
Proof. split; [reflexivity | discriminate]. Qed.

(** C2 (amended): on a bucket whose interval has an interval type,
    [_timestamp_bucket] fails with [UnsupportedOperationError] whenever the
    interval is not a literal, whenever its unit is microsecond or is not a
    key of the unit map, and whenever an offset is supplied; otherwise, once
    the operand is translated, it emits
    [DATE_BUCKET(unit keyword, width, value, CAST('1970-01-01' AS DATETIME2))]
    with keyword, width and origin written verbatim. *)
Theorem bucket_lowering `{Core} (t : ExprTranslator) (arg interval : Node)
    (offset : option Node) (unit : string) :
  kind (dtype interval) = Interval unit ->
  (isinstance_Literal interval = false ->
     _timestamp_bucket t (TimestampBucket arg interval offset)
       = Raise UnsupportedOperationError) /\
  (unit = "us" \/ _interval_units !! unit = None ->
     _timestamp_bucket t (TimestampBucket arg interval offset)
       = Raise UnsupportedOperationError) /\
  (offset <> None ->
     _timestamp_bucket t (TimestampBucket arg interval offset)
       = Raise UnsupportedOperationError) /\
  (forall v d kw a,
     interval = Literal v d -> unit <> "us" ->
     In (unit, kw) documented_units -> offset = None ->
     translate t arg = Ok a ->
     _timestamp_bucket t (TimestampBucket arg interval offset)
       = Ok (FunctionCall "DATE_BUCKET"
               [LiteralColumn kw; LiteralColumn (py_str v); a;
                LiteralColumn "CAST('1970-01-01' AS DATETIME2)"])).
Proof.
  intros Hk.
  assert (Hu : unit_short (dtype interval) = Ok unit)
    by (unfold unit_short; rewrite Hk; reflexivity).
  unfold _timestamp_bucket. rewrite Hu.
  change (Ok unit ≫= ?f) with (f unit). cbv beta.
  repeat split.
  - intros ->. reflexivity.
  - intros Hbad. destruct (isinstance_Literal interval); [| reflexivity].
    cbn [negb].
    destruct Hbad as [-> | Hnone]; [reflexivity |].
    rewrite (bool_decide_eq_true_2 _ Hnone), orb_true_r. reflexivity.
  - intros Hoff. destruct offset as [o |]; [| congruence].
    destruct (isinstance_Literal interval); [| reflexivity].
    destruct (String.eqb unit "us" || bool_decide (_interval_units !! unit = None));
      reflexivity.
  - intros v d kw a -> Hus Hin -> Ha.
    apply interval_units_documented in Hin.
    apply String.eqb_neq in Hus.
    cbn [isinstance_Literal negb is_Some_b].
    rewrite Hus, Hin.
    rewrite bool_decide_eq_false_2 by discriminate.
    cbn. rewrite Ha. reflexivity.
Qed.

Lemma bucket_lowering_witness :
  @_timestamp_bucket plain_core (column_translator false)
     (TimestampBucket ts_col (Literal (PyInt 15) (interval_of "m")) None)
    = Ok (FunctionCall "DATE_BUCKET"
            [LiteralColumn "minute"; LiteralColumn "15"; ColumnClause "ts";
             LiteralColumn "CAST('1970-01-01' AS DATETIME2)"])
  /\ @_timestamp_bucket plain_core (column_translator false)
     (TimestampBucket ts_col (Literal (PyInt 15) (interval_of "us")) None)
    = Raise UnsupportedOperationError.
Proof.
  split.
  - apply (proj2 (proj2 (proj2
      (@bucket_lowering plain_core (column_translator false) ts_col
         (Literal (PyInt 15) (interval_of "m")) None "m" eq_refl)))
      (PyInt 15) (interval_of "m") "minute" (ColumnClause "ts") eq_refl).
    + discriminate.
    + simpl. tauto.
    + reflexivity.
    + reflexivity.
  - apply (proj1 (proj2
      (@bucket_lowering plain_core (column_translator false) ts_col
         (Literal (PyInt 15) (interval_of "us")) None "us" eq_refl))).
    left. reflexivity.
Defined.

(** ** Negation *)

Lemma case_is_zero_eval (srv : Server) (a : ClauseElement) (z : Z) :
  sql_eval srv a = Some (VInt z) ->
  sql_eval srv (case_is_zero a) = Some (VInt (if z =? 0 then 1 else 0)).
Proof.
  intros Ha. cbn. rewrite Ha. cbn. destruct (z =? 0); reflexivity.
Qed.

(** C3: once the operand is translated, [Not] lowers within a predicate to
    the native negation of the operand, and elsewhere to the conditional
    that compares the operand with 0, selecting true when they are equal
    and false otherwise; on the encodings 0 and 1 the conditional computes
    the negation. *)
Theorem not_lowering (t : ExprTranslator) (arg : Node) (a : ClauseElement) :
  translate t arg = Ok a ->
  (within_where t = true -> _not t (Not arg) = Ok (SaNot a)) /\
  (within_where t = false ->
     _not t (Not arg)
       = Ok (SaCase [(BinaryExpression op_eq a (BindParameter (PyInt 0)),
                      BindParameter (PyBool true))]
                    (BindParameter (PyBool false)))) /\
  (forall srv,
     (sql_eval srv a = Some (VInt 0) ->
        sql_eval srv (case_is_zero a) = Some (VInt 1)) /\
     (sql_eval srv a = Some (VInt 1) ->
        sql_eval srv (case_is_zero a) = Some (VInt 0))).
Proof.
  intros Ha. unfold _not. rewrite Ha. repeat split.
  - intros ->. reflexivity.
  - intros ->. reflexivity.
  - intros H0. apply (case_is_zero_eval srv a 0 H0).
  - intros H1. apply (case_is_zero_eval srv a 1 H1).
Qed.

Lemma not_lowering_witness :
  _not (column_translator true)
       (Not (TableColumn "flag" {| kind := Boolean; nullable := true |}))
    = Ok (SaNot (ColumnClause "flag"))
  /\ _not (column_translator false)
       (Not (TableColumn "flag" {| kind := Boolean; nullable := true |}))
    = Ok (case_is_zero (ColumnClause "flag")).
Proof.
  split.
  - apply (proj1 (not_lowering (column_translator true)
             (TableColumn "flag" {| kind := Boolean; nullable := true |})
             (ColumnClause "flag") eq_refl)).
    reflexivity.
  - apply (proj1 (proj2 (not_lowering (column_translator false)
             (TableColumn "flag" {| kind := Boolean; nullable := true |})
             (ColumnClause "flag") eq_refl))).
    reflexivity.
Defined.

(** ** String search *)

(** C9: once the operands are translated, [StringFind] lowers to
    [charindex(substr, arg) - 1], or to [charindex(substr, arg, start) - 1]
    with the translated start position passed as it is; the fourth argument
    of the operation has no effect; on the server the result is the value
    of [CHARINDEX] minus 1, so -1 where [CHARINDEX] answers 0. *)
Theorem string_find_lowering (t : ExprTranslator) (arg substr : Node)
    (end_ : option Node) (a s : ClauseElement) :
  translate t arg = Ok a ->
  translate t substr = Ok s ->
  _string_find t (StringFind arg substr None end_)
    = Ok (BinaryExpression op_sub (FunctionCall "charindex" [s; a])
            (BindParameter (PyInt 1))) /\
  (forall start st,
     translate t start = Ok st ->
     _string_find t (StringFind arg substr (Some start) end_)
       = Ok (BinaryExpression op_sub (FunctionCall "charindex" [s; a; st])
               (BindParameter (PyInt 1)))) /\
  (forall start,
     _string_find t (StringFind arg substr start end_)
       = _string_find t (StringFind arg substr start None)) /\
  (forall srv hay needle,
     sql_eval srv a = Some (VStr hay) ->
     sql_eval srv s = Some (VStr needle) ->
     sql_eval srv (BinaryExpression op_sub (FunctionCall "charindex" [s; a])
                     (BindParameter (PyInt 1)))
       = Some (VInt (charindex srv needle hay None - 1)) /\
     (charindex srv needle hay None = 0 ->
      sql_eval srv (BinaryExpression op_sub (FunctionCall "charindex" [s; a])
                      (BindParameter (PyInt 1)))
        = Some (VInt (-1)))).
Proof.
  intros Ha Hs. unfold _string_find. rewrite Ha, Hs.
  split; [reflexivity |]. split; [| split; [reflexivity |]].
  - intros start st Hst. cbn. rewrite Hst. reflexivity.
  - intros srv hay needle Hhay Hneedle. split.
    + cbn. rewrite Hhay, Hneedle. reflexivity.
    + intros Hz. cbn. rewrite Hhay, Hneedle. cbn. rewrite Hz. reflexivity.
Qed.

Lemma string_find_lowering_witness :
  _string_find (column_translator false)
     (StringFind (TableColumn "s" {| kind := StringT; nullable := true |})
                 (Literal (PyStr "lo") {| kind := StringT; nullable := true |})
                 (Some (Literal (PyInt 3) int8))
                 (Some (Literal (PyInt 9) int8)))
    = Ok (BinaryExpression op_sub
            (FunctionCall "charindex"
               [BindParameter (PyStr "lo"); ColumnClause "s";
                BindParameter (PyInt 3)])
            (BindParameter (PyInt 1))).
Proof.
  apply (proj1 (proj2 (string_find_lowering (column_translator false)
           (TableColumn "s" {| kind := StringT; nullable := true |})
           (Literal (PyStr "lo") {| kind := StringT; nullable := true |})
           (Some (Literal (PyInt 9) int8))
           (ColumnClause "s") (BindParameter (PyStr "lo"))
           eq_refl eq_refl))).
  reflexivity.
Defined.

(** ** Reductions *)

Lemma registry_override `{Core} (cls : string) (rule : Lowering) :
  mssql_overrides !! cls = Some rule ->
  cls ∉ _invalid_operations ->
  operation_registry !! cls = Some rule.
Proof.
  intros Hov Hvalid. unfold operation_registry.
  apply map_lookup_filter_Some. split; [| exact Hvalid].
  unfold operation_registry_updated, dict_update.
  apply lookup_union_Some_l. exact Hov.
Qed.

Lemma reduction_refines `{Core} (agg cast_type : string) (target : TypeKind)
    (t : ExprTranslator) (op arg : Node) (where_ : option Node) :
  dt_dtype cast_type = Ok target ->
  reduction_args op = Ok (arg, where_) ->
  _reduction (fun x => sa_func agg [x]) cast_type t op
    = reduction_spec agg target t arg where_.
Proof.
  intros Hty Hargs.
  unfold _reduction, reduction_spec, coerce_boolean, mask_filter.
  rewrite Hargs, Hty.
  cbn. destruct (is_boolean (dtype arg)), (isinstance_TableColumn arg);
    cbn; destruct where_; cbn;
    match goal with |- context [translate t ?n] =>
      destruct (translate t n) end; reflexivity.
Qed.

Lemma Cast_neq (arg : Node) (to : DataType) : Cast arg to <> arg.
Proof.
  revert to. induction arg; intros to' Heq; try discriminate Heq.
  injection Heq as Heq _. exact (IHarg _ Heq).
Qed.

Lemma IfElse_neq (arg a b : Node) : IfElse arg a b <> arg.
Proof.
  revert a b. induction arg; intros a b Heq; try discriminate Heq.
  injection Heq as Heq _ _. exact (IHarg1 _ _ Heq).
Qed.

Lemma coerce_boolean_wraps `{Core} (target : TypeKind) (arg : Node) :
  is_boolean (dtype arg) = true ->
  coerce_boolean target arg <> arg /\
  (isinstance_TableColumn arg = true ->
     coerce_boolean target arg
       = Cast arg {| kind := target; nullable := nullable (dtype arg) |}) /\
  (isinstance_TableColumn arg = false ->
     coerce_boolean target arg = IfElse arg (lit_int 1) (lit_int 0)).
Proof.
  intros Hb. unfold coerce_boolean. rewrite Hb.
  destruct (isinstance_TableColumn arg); repeat split; try discriminate.
  - apply Cast_neq.
  - apply IfElse_neq.
Qed.

Lemma not_invalid (cls : string) :
  bool_decide (cls ∈ ["RPad"; "LPad"; "BitAnd"; "BitOr"; "BitXor";
                      "GroupConcat"; "NthValue"]) = false ->
  cls ∉ _invalid_operations.
Proof.
  intros Hb Hin. apply bool_decide_eq_false in Hb. apply Hb.
  unfold _invalid_operations in Hin.
  repeat (apply elem_of_union in Hin as [Hin | Hin]);
    apply elem_of_singleton in Hin; subst cls;
    apply (bool_decide_unpack _); reflexivity.
Qed.

(** C4: the rules registered for [Count], [Sum], [Min], [Max] and [Mean]
    are the three steps of the specification: a boolean argument is cast
    (a column reference, keeping its nullability) or wrapped in a
    conditional producing 1 or 0, so that the aggregate is never applied to
    the boolean argument itself; a filter predicate masks the argument with
    null; and the aggregate is applied; the cast target is [float64] for
    [Mean] and [int32] for the others. *)
Theorem reduction_lowering `{Core} (t : ExprTranslator) (arg : Node)
    (where_ : option Node) :
  (exists rule, operation_registry !! "Count" = Some rule /\
     rule t (Count arg where_) = reduction_spec "count" Int32 t arg where_) /\
  (exists rule, operation_registry !! "Sum" = Some rule /\
     rule t (Sum arg where_) = reduction_spec "sum" Int32 t arg where_) /\
  (exists rule, operation_registry !! "Mean" = Some rule /\
     rule t (Mean arg where_) = reduction_spec "avg" Float64 t arg where_) /\
  (exists rule, operation_registry !! "Min" = Some rule /\
     rule t (Min arg where_) = reduction_spec "min" Int32 t arg where_) /\
  (exists rule, operation_registry !! "Max" = Some rule /\
     rule t (Max arg where_) = reduction_spec "max" Int32 t arg where_) /\
  (is_boolean (dtype arg) = true ->
   forall target,
     coerce_boolean target arg <> arg /\
     (isinstance_TableColumn arg = true ->
        coerce_boolean target arg
          = Cast arg {| kind := target; nullable := nullable (dtype arg) |}) /\
     (isinstance_TableColumn arg = false ->
        coerce_boolean target arg = IfElse arg (lit_int 1) (lit_int 0))).
Proof.
  split; [| split; [| split; [| split; [| split]]]].
  - exists (_reduction (fun x => sa_func "count" [x]) "int32"). split.
    + apply registry_override; [reflexivity | apply not_invalid; reflexivity].
    + apply reduction_refines; reflexivity.
  - exists (_reduction (fun x => sa_func "sum" [x]) "int32"). split.
    + apply registry_override; [reflexivity | apply not_invalid; reflexivity].
    + apply reduction_refines; reflexivity.
  - exists (_reduction (fun x => sa_func "avg" [x]) "float64"). split.
    + apply registry_override; [reflexivity | apply not_invalid; reflexivity].
    + apply reduction_refines; reflexivity.
  - exists (_reduction (fun x => sa_func "min" [x]) "int32"). split.
    + apply registry_override; [reflexivity | apply not_invalid; reflexivity].
    + apply reduction_refines; reflexivity.
  - exists (_reduction (fun x => sa_func "max" [x]) "int32"). split.
    + apply registry_override; [reflexivity | apply not_invalid; reflexivity].
    + apply reduction_refines; reflexivity.
  - intros Hb target. apply coerce_boolean_wraps. exact Hb.
Qed.

Lemma reduction_lowering_witness :
  @coerce_boolean plain_core Int32 flag_col = Cast flag_col
      {| kind := Int32; nullable := true |}
  /\ @_reduction plain_core (fun x => sa_func "sum" [x]) "int32"
       (column_translator false)
       (Sum (Literal (PyBool true) boolean) (Some flag_col))
    = Ok (FunctionCall "sum"
            [FunctionCall "iif"
               [ColumnClause "flag";
                FunctionCall "iif"
                  [BindParameter (PyBool true);
                   BindParameter (PyInt 1); BindParameter (PyInt 0)];
                SaNull]]).
Proof.
  split.
  - apply (proj2 (proj2 (proj2 (proj2 (proj2
      (@reduction_lowering plain_core (column_translator false) flag_col
         None))))) eq_refl Int32).
    reflexivity.
  - reflexivity.
Defined.

(** ** String length *)

Lemma rstrip_spaces_guard (s : string) :
  rstrip_spaces (s ++ "Z") = s ++ "Z".
Proof.
  induction s as [| c r IH]; [reflexivity |].
  simpl. rewrite IH. destruct r; reflexivity.
Qed.

Lemma length_guarded (s : string) :
  String.length (s ++ "Z") = S (String.length s).
Proof.
  induction s as [| c r IH]; [reflexivity |].
  simpl. f_equal. exact IH.
Qed.

Lemma sql_len_guarded (s : string) :
  sql_len (("A" ++ s) ++ "Z") - 2 = Z.of_nat (String.length s).
Proof.
  unfold sql_len. rewrite rstrip_spaces_guard.
  change (("A" ++ s) ++ "Z") with (String "A" (s ++ "Z")).
  cbn [String.length]. rewrite length_guarded. lia.
Qed.

(** C5: the rule registered for [StringLength] emits
    [len('A' + s + 'Z') - 2] on the translated operand, and on the server,
    where [LEN] leaves trailing spaces out, this is the number of characters
    of [s] for every string [s], the empty one included. *)
Theorem string_length_lowering `{Core} (t : ExprTranslator) (arg : Node)
    (x : ClauseElement) :
  translate t arg = Ok x ->
  (exists rule, operation_registry !! "StringLength" = Some rule /\
     rule t (StringLength arg)
       = Ok (BinaryExpression op_sub
               (FunctionCall "len"
                  [BinaryExpression op_add
                     (BinaryExpression op_add (BindParameter (PyStr "A")) x)
                     (BindParameter (PyStr "Z"))])
               (BindParameter (PyInt 2)))) /\
  (forall srv s,
     sql_eval srv x = Some (VStr s) ->
     sql_eval srv (_len x) = Some (VInt (Z.of_nat (String.length s)))).
Proof.
  intros Hx. split.
  - exists (unary (fn1 _len)). split.
    + apply registry_override; [reflexivity | apply not_invalid; reflexivity].
    + unfold unary, fixed_arity. cbn. rewrite Hx. reflexivity.
  - intros srv s Hs. cbn. rewrite Hs. cbn.
    do 2 f_equal. apply (sql_len_guarded s).
Qed.

Lemma string_length_lowering_witness :
  sql_eval {| column := fun _ => VStr "hello  ";
              charindex := fun _ _ _ => 0;
              hashbytes := fun _ _ => [] |}
           (_len (ColumnClause "s")) = Some (VInt 7)
  /\ sql_eval {| column := fun _ => VStr "";
                 charindex := fun _ _ _ => 0;
                 hashbytes := fun _ _ => [] |}
           (_len (ColumnClause "s")) = Some (VInt 0).
Proof.
  split.
  - apply (proj2 (@string_length_lowering plain_core (column_translator false)
             (TableColumn "s" {| kind := StringT; nullable := true |})
             (ColumnClause "s") eq_refl)
           {| column := fun _ => VStr "hello  ";
              charindex := fun _ _ _ => 0;
              hashbytes := fun _ _ => [] |} "hello  ").
    reflexivity.
  - apply (proj2 (@string_length_lowering plain_core (column_translator false)
             (TableColumn "s" {| kind := StringT; nullable := true |})
             (ColumnClause "s") eq_refl)
           {| column := fun _ => VStr "";
              charindex := fun _ _ _ => 0;
              hashbytes := fun _ _ => [] |} "").
    reflexivity.
Defined.

(** ** Hashing *)

Lemma hash_name_cases (how : string) :
  (exists name, In (how, name) dialect_algorithms) \/
  (String.eqb how "md5" = false /\ String.eqb how "sha1" = false /\
   String.eqb how "sha256" = false /\ String.eqb how "sha512" = false).
Proof.
  destruct (String.eqb_spec how "md5") as [-> | ?];
    [left; exists "md5"; simpl; tauto |].
  destruct (String.eqb_spec how "sha1") as [-> | ?];
    [left; exists "sha1"; simpl; tauto |].
  destruct (String.eqb_spec how "sha256") as [-> | ?];
    [left; exists "sha2_256"; simpl; tauto |].
  destruct (String.eqb_spec how "sha512") as [-> | ?];
    [left; exists "sha2_512"; simpl; tauto |].
  right. repeat split; reflexivity.
Qed.

Lemma hex_byte_lower (x : Byte.byte) :
  is_lower_hex (ascii_lower (hex_digit_upper (Byte.to_N x / 16)))
  && is_lower_hex (ascii_lower (hex_digit_upper (Byte.to_N x mod 16))) = true.
Proof. destruct x; reflexivity. Qed.

Lemma hex_lower_digits (b : list Byte.byte) :
  str_forall is_lower_hex (str_lower (hex_upper b)) = true.
Proof.
  induction b as [| x r IH]; [reflexivity |].
  pose proof (hex_byte_lower x) as Hx. apply andb_true_iff in Hx as [Hhi Hlo].
  unfold str_lower in *. simpl. rewrite Hhi, Hlo, IH. reflexivity.
Qed.

Lemma lower_hex_no_prefix (s : string) :
  str_forall is_lower_hex s = true -> String.prefix "0x" s = false.
Proof.
  intros Hs. destruct (String.prefix "0x" s) eqn:E; [| reflexivity].
  apply String.prefix_correct in E.
  destruct s as [| c1 [| c2 r]]; try discriminate E.
  cbn [String.length String.substring] in E.
  injection E as -> -> _.
  cbn [str_forall] in Hs. apply andb_true_iff in Hs as [_ Hs].
  apply andb_true_iff in Hs as [Hx _]. discriminate Hx.
Qed.

(** C6: once the operand is translated, [HashBytes] and [HexDigest] pass
    "md5" and "sha1" on as they are, rename "sha256" to "sha2_256" and
    "sha512" to "sha2_512", and raise [NotImplementedError] on any other
    identifier; [HexDigest] wraps the hash in
    [lower(convert(VARCHAR(MAX), hash, 2))], which on the server is null or
    a text of the characters 0-9 and a-f only, hence in lower case and
    without a leading "0x". *)
Theorem hash_lowering (t : ExprTranslator) (arg : Node) (how : string)
    (x : ClauseElement) :
  translate t arg = Ok x ->
  (forall name, In (how, name) dialect_algorithms ->
     _hashbytes t (HashBytes arg how)
       = Ok (FunctionCall "hashbytes" [BindParameter (PyStr name); x]) /\
     _hexdigest t (HexDigest arg how)
       = Ok (FunctionCall "lower"
               [FunctionCall "convert"
                  [LiteralColumn "VARCHAR(MAX)";
                   FunctionCall "hashbytes" [BindParameter (PyStr name); x];
                   BindParameter (PyInt 2)]])) /\
  ((forall name, ~ In (how, name) dialect_algorithms) ->
     _hashbytes t (HashBytes arg how) = Raise (NotImplementedError how) /\
     _hexdigest t (HexDigest arg how) = Raise (NotImplementedError how)) /\
  (forall srv name v,
     sql_eval srv x = Some v ->
     sql_eval srv
       (hex_of (FunctionCall "hashbytes" [BindParameter (PyStr name); x]))
       = Some VNull \/
     exists s,
       sql_eval srv
         (hex_of (FunctionCall "hashbytes" [BindParameter (PyStr name); x]))
         = Some (VStr s) /\
       str_forall is_lower_hex s = true /\
       String.prefix "0x" s = false).
Proof.
  intros Hx. split; [| split].
  - intros name Hin. unfold _hashbytes, _hexdigest. cbn. rewrite Hx. cbn.
    unfold dialect_algorithms in Hin. simpl in Hin.
    repeat (destruct Hin as [Hin | Hin];
            [inversion Hin; subst; split; reflexivity |]).
    destruct Hin.
  - intros Hnot.
    destruct (hash_name_cases how) as [[name Hin] | (H1 & H2 & H3 & H4)];
      [destruct (Hnot name Hin) |].
    unfold _hashbytes, _hexdigest. cbn. rewrite Hx. cbn.
    rewrite H1, H2, H3, H4. split; reflexivity.
  - intros srv name v Hv. cbn. rewrite Hv. cbn.
    destruct v; cbn;
      try (left; reflexivity);
      (right; eexists; split; [reflexivity |];
       split; [apply hex_lower_digits
              | apply lower_hex_no_prefix, hex_lower_digits]).
Qed.

Lemma hash_lowering_witness :
  _hexdigest (column_translator false)
     (HexDigest (TableColumn "s" {| kind := StringT; nullable := true |})
                "sha256")
    = Ok (hex_of (FunctionCall "hashbytes"
                    [BindParameter (PyStr "sha2_256"); ColumnClause "s"]))
  /\ _hashbytes (column_translator false)
       (HashBytes (TableColumn "s" {| kind := StringT; nullable := true |})
                  "crc32")
    = Raise (NotImplementedError "crc32").
Proof.
  split.
  - apply (proj1 (hash_lowering (column_translator false)
             (TableColumn "s" {| kind := StringT; nullable := true |})
             "sha256" (ColumnClause "s") eq_refl) "sha2_256").
    simpl. tauto.
  - apply (proj1 (proj2 (hash_lowering (column_translator false)
             (TableColumn "s" {| kind := StringT; nullable := true |})
             "crc32" (ColumnClause "s") eq_refl))).
    intros name Hin. simpl in Hin.
    repeat (destruct Hin as [Hin | Hin]; [discriminate Hin |]).
    destruct Hin.
Defined.

(** ** The denylist *)

Lemma invalid_operations_elem (cls : string) :
  cls ∈ _invalid_operations <->
  In cls ["RPad"; "LPad"; "BitAnd"; "BitOr"; "BitXor"; "GroupConcat";
          "NthValue"].
Proof.
  unfold _invalid_operations. rewrite !elem_of_union, !elem_of_singleton.
  simpl. intuition congruence.
Qed.

(** C7: whatever the base registries hold, every kind of the denylist
    ([RPad], [LPad], [BitAnd], [BitOr], [BitXor], [GroupConcat], [NthValue])
    is absent from the final registry, so that resolving it fails with the
    unsupported-operation error and yields no rule. *)
Theorem invalid_operations_unresolvable `{Core} (cls : string) :
  In cls ["RPad"; "LPad"; "BitAnd"; "BitOr"; "BitXor"; "GroupConcat";
          "NthValue"] ->
  operation_registry !! cls = None /\
  resolve cls = Raise UnsupportedOperationError.
Proof.
  intros Hin. apply invalid_operations_elem in Hin.
  assert (Hnone : operation_registry !! cls = None).
  { unfold operation_registry. apply map_lookup_filter_None. right.
    intros rule _ Hkeep. apply Hkeep. exact Hin. }
  split; [exact Hnone |]. unfold resolve. rewrite Hnone. reflexivity.
Qed.

Lemma invalid_operations_unresolvable_witness :
  @operation_registry_updated padded_core !! "RPad"
    = Some (fixed_arity (fn "rpad") 3)
  /\ @operation_registry padded_core !! "RPad" = None
  /\ @resolve padded_core "NthValue" = Raise UnsupportedOperationError.
Proof.
  split; [reflexivity |]. split.
  - apply (proj1 (@invalid_operations_unresolvable padded_core "RPad"
                    (or_introl eq_refl))).
  - apply (proj2 (@invalid_operations_unresolvable padded_core "NthValue"
                    ltac:(simpl; tauto))).
Defined.

(** ** Timestamp literals *)

Lemma below_spec (n : nat) (p : Z -> bool) :
  below n p = true -> forall z, 0 <= z < Z.of_nat n -> p z = true.
Proof.
  induction n as [| k IH]; intros Hb z Hz; [lia |].
  cbn [below] in Hb. apply andb_true_iff in Hb as [Hk Hb].
  destruct (Z.eq_dec z (Z.of_nat k)) as [-> | Hne]; [exact Hk |].
  apply IH; [exact Hb | lia].
Qed.

Lemma two_digits_shape (n : Z) :
  0 <= n < 100 ->
  exists c1 c2,
    two_digits n = String c1 (String c2 EmptyString) /\
    parse_digits 0 (String c1 (String c2 EmptyString)) = Some n /\
    py_int (String c1 (String c2 EmptyString)) = Ok n.
Proof.
  intros Hn.
  assert (Hok : two_digits_ok n = true).
  { apply (below_spec 100); [vm_compute; reflexivity | lia]. }
  unfold two_digits_ok in Hok.
  destruct (two_digits n) as [| c1 [| c2 [| ? ?]]]; try discriminate Hok.
  exists c1, c2.
  destruct (parse_digits 0 (String c1 (String c2 "")));
    [| discriminate Hok].
  destruct (py_int (String c1 (String c2 ""))); [| discriminate Hok].
  apply andb_true_iff in Hok as [Hv Hw].
  apply Z.eqb_eq in Hv, Hw. subst. repeat split.
Qed.

Lemma py_int_signed (sign : bool) (c1 c2 : ascii) (n : Z) :
  parse_digits 0 (String c1 (String c2 EmptyString)) = Some n ->
  py_int ((if sign then "-" else "+") ++ String c1 (String c2 EmptyString))
    = Ok (if sign then - n else n).
Proof.
  intros Hp. destruct sign.
  - change (py_int ("-" ++ String c1 (String c2 EmptyString)))
      with (Z.opp <$> from_option Ok (Raise ValueError)
              (parse_digits 0 (String c1 (String c2 EmptyString)))).
    rewrite Hp. reflexivity.
  - change (py_int ("+" ++ String c1 (String c2 EmptyString)))
      with (from_option Ok (Raise ValueError)
              (parse_digits 0 (String c1 (String c2 EmptyString)))).
    rewrite Hp. reflexivity.
Qed.

Lemma offset_slices (sign : bool) (h1 h2 m1 m2 : ascii) (tail : string)
    (last2 : string) :
  (tail = EmptyString /\ last2 = String m1 (String m2 EmptyString)) \/
  (exists s1 s2,
     tail = String s1 (String s2 EmptyString) /\ last2 = tail) \/
  (exists s1 s2 a1 a2 b1 b2 c1 c2,
     tail = String s1 (String s2 EmptyString) ++ "."
              ++ String a1 (String a2 EmptyString)
              ++ String b1 (String b2 EmptyString)
              ++ String c1 (String c2 EmptyString) /\
     last2 = String c1 (String c2 EmptyString)) ->
  let text := (if sign then "-" else "+")
                ++ String h1 (String h2 EmptyString)
                ++ String m1 (String m2 EmptyString) ++ tail in
  slice_to 3 text
    = (if sign then "-" else "+") ++ String h1 (String h2 EmptyString) /\
  slice_last 2 text = last2.
Proof.
  intros [[-> ->] | [(s1 & s2 & -> & ->)
                    | (s1 & s2 & a1 & a2 & b1 & b2 & c1 & c2 & -> & ->)]];
    destruct sign; split; reflexivity.
Qed.

Lemma quot_signed (off d : Z) :
  0 < d ->
  Z.quot off d = if off <? 0 then - (Z.abs off / d) else Z.abs off / d.
Proof.
  intros Hd. destruct (Z.ltb_spec off 0).
  - rewrite Z.abs_neq by lia.
    rewrite <- (Z.opp_involutive off) at 1.
    rewrite Z.quot_opp_l by lia. rewrite Z.quot_div_nonneg by lia.
    reflexivity.
  - rewrite Z.abs_eq by lia. apply Z.quot_div_nonneg; lia.
Qed.

Lemma parsed_offset_parts (off : Z) :
  timedelta (-1) 0 0 < off < timedelta 1 0 0 ->
  parsed_offset (Some off) = Ok (offset_parts off).
Proof.
  change (timedelta (-1) 0 0) with (-86400000000).
  change (timedelta 1 0 0) with 86400000000.
  intros Hoff. unfold parsed_offset, offset_parts, strftime_z.
  change (timedelta (-1) 0 0) with (-86400000000).
  change (timedelta 1 0 0) with 86400000000.
  change (timedelta 0 3600 0) with 3600000000.
  change (timedelta 0 60 0) with 60000000.
  destruct (Z.ltb_spec (-86400000000) off); [| lia].
  destruct (Z.ltb_spec off 86400000000); [| lia].
  cbn [andb]. change (Ok ?x ≫= ?f) with (f x). cbv beta zeta.
  set (a := Z.abs off).
  assert (Ha : 0 <= a < 86400000000) by (subst a; lia).
  rewrite (Z.mod_mod_divide a 3600000000 60000000)
    by (exists 60; reflexivity).
  set (u := a mod 1000000). set (sec := a mod 60000000 / 1000000).
  set (m := a mod 3600000000 / 60000000). set (h := a / 3600000000).
  assert (Hu : 0 <= u < 1000000) by (apply Z.mod_pos_bound; lia).
  assert (Hsec : 0 <= sec < 60).
  { pose proof (Z.mod_pos_bound a 60000000 ltac:(lia)). subst sec.
    split; [apply Z.div_pos; lia | apply Z.div_lt_upper_bound; lia]. }
  assert (Hm : 0 <= m < 60).
  { pose proof (Z.mod_pos_bound a 3600000000 ltac:(lia)). subst m.
    split; [apply Z.div_pos; lia | apply Z.div_lt_upper_bound; lia]. }
  assert (Hh : 0 <= h < 24).
  { subst h. split; [apply Z.div_pos; lia | apply Z.div_lt_upper_bound; lia]. }
  destruct (two_digits_shape h) as (h1 & h2 & Eh & Hhp & _); [lia |].
  destruct (two_digits_shape m) as (m1 & m2 & Em & _ & Hmi); [lia |].
  destruct (two_digits_shape sec) as (s1 & s2 & Es & _ & Hsi); [lia |].
  destruct (two_digits_shape (u / 10000)) as (a1 & a2 & Ea & _ & _).
  { split; [apply Z.div_pos; lia | apply Z.div_lt_upper_bound; lia]. }
  destruct (two_digits_shape (u / 100 mod 100)) as (b1 & b2 & Eb & _ & _).
  { apply Z.mod_pos_bound. lia. }
  destruct (two_digits_shape (u mod 100)) as (c1 & c2 & Ec & _ & Hci).
  { apply Z.mod_pos_bound. lia. }
  unfold six_digits. rewrite Eh, Em, Es, Ea, Eb, Ec.
  rewrite (quot_signed off 3600000000) by lia. fold a. fold h.
  match goal with
  | |- context [String m1 (String m2 EmptyString) ++ ?tail] =>
      destruct (offset_slices (off <? 0) h1 h2 m1 m2 tail
                  (if negb (u =? 0) then String c1 (String c2 "")
                   else if negb (sec =? 0) then String s1 (String s2 "")
                   else String m1 (String m2 ""))) as [Hto Hlast]
  end.
  { destruct (u =? 0); cbn [negb].
    - destruct (sec =? 0); cbn [negb].
      + left. split; reflexivity.
      + right. left. exists s1, s2. split; reflexivity.
    - right. right. exists s1, s2, a1, a2, b1, b2, c1, c2.
      split; reflexivity. }
  cbv zeta in Hto, Hlast. rewrite Hto, Hlast.
  rewrite (py_int_signed (off <? 0) h1 h2 _ Hhp).
  change (Ok ?x ≫= ?f) with (f x). cbv beta.
  destruct (u =? 0); cbn [negb]; [destruct (sec =? 0); cbn [negb] |].
  - rewrite Hmi. reflexivity.
  - rewrite Hsi. reflexivity.
  - rewrite Hci. reflexivity.
Qed.

Lemma offset_parts_minutes (minutes : Z) :
  offset_parts (timedelta 0 (60 * minutes) 0)
    = (Z.quot minutes 60, Z.abs minutes mod 60).
Proof.
  assert (Eoff : timedelta 0 (60 * minutes) 0 = 60000000 * minutes)
    by (unfold timedelta; lia).
  rewrite Eoff. unfold offset_parts.
  rewrite Z.abs_mul. change (Z.abs 60000000) with 60000000.
  set (k := Z.abs minutes).
  assert (Hu : (60000000 * k) mod 1000000 = 0).
  { replace (60000000 * k) with (60 * k * 1000000) by lia.
    apply Z_mod_mult. }
  assert (Hs : (60000000 * k) mod 60000000 = 0).
  { rewrite Z.mul_comm. apply Z_mod_mult. }
  rewrite Hu, Hs. cbn [Z.eqb negb Z.div].
  change (0 / 1000000) with 0. cbn [Z.eqb negb].
  f_equal.
  - change 3600000000 with (60000000 * 60).
    apply Z.quot_mul_cancel_l; lia.
  - change 3600000000 with (60000000 * 60).
    rewrite Z.mul_mod_distr_l by lia.
    rewrite Z.mul_comm. apply Z.div_mul. lia.
Qed.

Lemma strftime_z_examples :
  strftime_z (Some (timedelta 0 19800 0)) = Ok "+0530"
  /\ strftime_z (Some (timedelta 0 (-1172) 0)) = Ok "-001932"
  /\ strftime_z (Some (timedelta 0 18000 99)) = Ok "+050000.000099"
  /\ strftime_z None = Ok ""
  /\ strftime_z (Some (timedelta 1 0 0)) = Raise ValueError.
Proof. repeat split. Qed.

(** C8, as the specification states it, fails on a value whose [tzinfo]
    gives no UTC offset (its [utcoffset()] is [None]): the value carries no
    offset information, yet it passes the assertion, which only tests
    [value.tzinfo]; [strftime("%z")] is then empty and [int] of the empty
    text raises [ValueError]. *)
Lemma literal_tz_without_utcoffset :
  @_literal plain_core (column_translator false)
     (Literal (PyDatetime (noon (Some {| utcoffset := None |}))) timestamp_tz)
    = Raise ValueError
  /\ @_literal plain_core (column_translator false)
     (Literal (PyDatetime (noon (Some {| utcoffset := None |}))) timestamp_tz)
    <> Raise AssertionError.
Proof. split; [reflexivity | discriminate]. Qed.

(** C8 (amended): a non-null timestamp literal whose type has a timezone
    lowers to [datetimeoffsetfromparts] on bound parameters: the seven
    components of the value, the hour offset with its sign and the minute
    offset read from [strftime("%z")], and the precision 6; for a UTC offset
    of whole minutes these are its hours and its minutes (UTC+05:30 gives 5
    and 30); a value without [tzinfo] fails the assertion, and a value whose
    [tzinfo] gives no UTC offset raises [ValueError]. *)
Theorem literal_timestamp_tz `{Core} (t : ExprTranslator) (v : datetime)
    (tz : string) (nullable : bool) :
  let op := Literal (PyDatetime v)
              {| kind := Timestamp (Some tz); nullable := nullable |} in
  (tzinfo v = None -> _literal t op = Raise AssertionError) /\
  (forall info,
     tzinfo v = Some info -> utcoffset info = None ->
     _literal t op = Raise ValueError) /\
  (forall info off,
     tzinfo v = Some info -> utcoffset info = Some off ->
     timedelta (-1) 0 0 < off < timedelta 1 0 0 ->
     _literal t op
       = Ok (FunctionCall "datetimeoffsetfromparts"
               [BindParameter (PyInt (year v));
                BindParameter (PyInt (month v));
                BindParameter (PyInt (day v));
                BindParameter (PyInt (hour v));
                BindParameter (PyInt (minute v));
                BindParameter (PyInt (second v));
                BindParameter (PyInt (microsecond v));
                BindParameter (PyInt (fst (offset_parts off)));
                BindParameter (PyInt (snd (offset_parts off)));
                BindParameter (PyInt 6)]) /\
     (forall minutes,
        off = timedelta 0 (60 * minutes) 0 ->
        offset_parts off = (Z.quot minutes 60, Z.abs minutes mod 60))).
Proof.
  cbv zeta. split; [| split].
  - intros Hnone. cbn. rewrite Hnone. reflexivity.
  - intros info Hsome Hoff. cbn. rewrite Hsome, Hoff. reflexivity.
  - intros info off Hsome Hoff Hrange. split.
    + pose proof (parsed_offset_parts off Hrange) as Hp.
      destruct (offset_parts off) as [ph pm].
      unfold parsed_offset in Hp. cbn. rewrite Hsome, Hoff.
      destruct (strftime_z (Some off)) as [offset | e]; [| discriminate Hp].
      cbn in Hp |- *.
      destruct (py_int (slice_to 3 offset)) as [h | e]; [| discriminate Hp].
      cbn in Hp |- *.
      destruct (py_int (slice_last 2 offset)) as [m | e]; [| discriminate Hp].
      cbn in Hp |- *. injection Hp as <- <-. reflexivity.
    + intros minutes ->. apply offset_parts_minutes.
Qed.

Lemma literal_timestamp_tz_witness :
  @_literal plain_core (column_translator false)
     (Literal (PyDatetime (noon (Some (fixed_offset 330)))) timestamp_tz)
    = Ok (FunctionCall "datetimeoffsetfromparts"
            [BindParameter (PyInt 2024); BindParameter (PyInt 3);
             BindParameter (PyInt 5); BindParameter (PyInt 12);
             BindParameter (PyInt 0); BindParameter (PyInt 0);
             BindParameter (PyInt 250);
             BindParameter (PyInt 5); BindParameter (PyInt 30);
             BindParameter (PyInt 6)])
  /\ @_literal plain_core (column_translator false)
       (Literal (PyDatetime (noon None)) timestamp_tz)
    = Raise AssertionError.
Proof.
  split.
  - apply (proj2 (proj2 (@literal_timestamp_tz plain_core
             (column_translator false) (noon (Some (fixed_offset 330)))
             "Asia/Kolkata" true))
           (fixed_offset 330) (timedelta 0 (60 * 330) 0) eq_refl eq_refl).
    cbv. split; reflexivity.
  - apply (proj1 (@literal_timestamp_tz plain_core (column_translator false)
             (noon None) "Asia/Kolkata" true)).
    reflexivity.
Defined.

(** ** Array indexing in the pandas backend *)

Lemma py_getitem_in_range (array : list PyValue) (index : Z) :
  - Z.of_nat (List.length array) <= index < Z.of_nat (List.length array) ->
  exists x,
    array !! Z.to_nat (if index <? 0
                       then index + Z.of_nat (List.length array)
                       else index) = Some x /\
    py_getitem (PyList array) index = Ok x.
Proof.
  intros Hr. unfold py_getitem.
  set (n := Z.of_nat (List.length array)) in *.
  set (i := if index <? 0 then index + n else index).
  assert (Hi : 0 <= i < n) by (subst i; destruct (Z.ltb_spec index 0); lia).
  destruct (lookup_lt_is_Some_2 array (Z.to_nat i)) as [x Hx]; [lia |].
  exists x. split; [exact Hx |].
  destruct (Z.ltb_spec i 0); [lia |]. destruct (Z.leb_spec n i); [lia |].
  cbn. rewrite Hx. reflexivity.
Qed.

Lemma py_getitem_out_of_range (array : list PyValue) (index : Z) :
  ~ (- Z.of_nat (List.length array) <= index < Z.of_nat (List.length array)) ->
  py_getitem (PyList array) index = Raise IndexError.
Proof.
  intros Hr. unfold py_getitem.
  set (n := Z.of_nat (List.length array)) in *.
  destruct (Z.ltb_spec index 0).
  - destruct (Z.ltb_spec (index + n) 0); [reflexivity | lia].
  - destruct (Z.ltb_spec index 0); [lia |].
    destruct (Z.leb_spec n index); [reflexivity | lia].
Qed.

Lemma index_cell_spec (array : list PyValue) (index : Z) :
  index_cell index (PyList array) = Ok (array_index_spec array index).
Proof.
  unfold index_cell, array_index_spec. cbn [py_len].
  change (Ok ?n ≫= ?f) with (f n). cbv beta.
  set (n := Z.of_nat (List.length array)).
  destruct (Z.leb_spec (- n) index) as [Hlo | Hlo]; [| reflexivity].
  change (Ok ?n ≫= ?f) with (f n). cbv beta.
  destruct (Z.ltb_spec index n) as [Hhi | Hhi]; [| reflexivity].
  destruct (py_getitem_in_range array index) as (x & Hx & Hget);
    [subst n; lia |].
  rewrite Hget. fold n in Hx. cbn. rewrite Hx. reflexivity.
Qed.

Lemma scalar_index_spec (array : list PyValue) (index : Z) :
  execute_array_index_scalar array index = Ok (array_index_spec array index).
Proof.
  unfold execute_array_index_scalar, array_index_spec.
  set (n := Z.of_nat (List.length array)).
  destruct (Z.leb_spec (- n) index) as [Hlo | Hlo];
    [destruct (Z.ltb_spec index n) as [Hhi | Hhi] |].
  - destruct (py_getitem_in_range array index) as (x & Hx & Hget);
      [subst n; lia |].
    rewrite Hget. fold n in Hx. cbn. rewrite Hx. reflexivity.
  - rewrite py_getitem_out_of_range by (subst n; lia). reflexivity.
  - rewrite py_getitem_out_of_range by (subst n; lia). reflexivity.
Qed.

(** C10: on a column of arrays, [execute_array_index] returns for every
    array and every integer index the element at the index (counted from
    the end when negative) if [-len <= index < len], and [None] otherwise,
    and raises nothing; the kernel for a scalar array, which catches
    [IndexError], returns the same. *)
Theorem array_index_total (data : list (list PyValue)) (index : Z) :
  execute_array_index (PyList <$> data) index
    = Ok ((fun array => array_index_spec array index) <$> data) /\
  (forall array,
     execute_array_index_scalar array index
       = Ok (array_index_spec array index)) /\
  (forall array,
     let n := Z.of_nat (List.length array) in
     (- n <= index < n ->
      exists x,
        array !! Z.to_nat (if index <? 0 then index + n else index) = Some x /\
        array_index_spec array index = x) /\
     (~ (- n <= index < n) -> array_index_spec array index = PyNone)).
Proof.
  split; [| split].
  - unfold execute_array_index, series_apply.
    change (mapM (index_cell index) (PyList <$> data)
            = Ok ((fun array => array_index_spec array index) <$> data)).
    induction data as [| array rest IH]; [reflexivity |].
    cbn [fmap list_fmap mapM]. rewrite index_cell_spec.
    change (Ok ?n ≫= ?f) with (f n). cbv beta.
    cbn [fmap list_fmap] in IH. rewrite IH. reflexivity.
  - intros array. apply scalar_index_spec.
  - intros array n. split.
    + intros Hr. destruct (py_getitem_in_range array index Hr) as (x & Hx & _).
      exists x. split; [exact Hx |].
      unfold array_index_spec. fold n.
      destruct (Z.leb_spec (- n) index); [| lia].
      destruct (Z.ltb_spec index n); [| lia].
      cbn. fold n in Hx. rewrite Hx. reflexivity.
    + intros Hr. unfold array_index_spec. fold n.
      destruct (Z.leb_spec (- n) index); [| reflexivity].
      destruct (Z.ltb_spec index n); [lia | reflexivity].
Qed.

Lemma array_index_total_witness :
  execute_array_index
    [PyList [PyInt 10; PyInt 20; PyInt 30]; PyList [PyInt 7]; PyList []] (-2)
    = Ok [PyInt 20; PyNone; PyNone]
  /\ execute_array_index_scalar [PyInt 10; PyInt 20; PyInt 30] 3 = Ok PyNone
  /\ execute_array_index_scalar [PyInt 10; PyInt 20; PyInt 30] (-3)
    = Ok (PyInt 10).
Proof.
  split; [| split].
  - apply (proj1 (array_index_total
                    [[PyInt 10; PyInt 20; PyInt 30]; [PyInt 7]; []] (-2))).
  - apply (proj1 (proj2 (array_index_total [] 3))
             [PyInt 10; PyInt 20; PyInt 30]).
  - apply (proj1 (proj2 (array_index_total [] (-3)))
             [PyInt 10; PyInt 20; PyInt 30]).
Defined.

(** * Properties of the rest of the registry *)

(** ** Composition of the registry *)

Lemma overrides_not_invalid `{Core} (cls : string) :
  cls ∈ _invalid_operations -> mssql_overrides !! cls = None.
Proof.
  intros Hin. apply invalid_operations_elem in Hin. simpl in Hin.
  repeat (destruct Hin as [<- | Hin]; [reflexivity |]). destruct Hin.
Qed.

(** X1: no key of the dictionary the registry is updated with is in the
    denylist, so every rule of that dictionary is in the final registry,
    under its key and whatever the base registries hold for that key. *)
Theorem overrides_all_registered `{Core} (cls : string) (rule : Lowering) :
  mssql_overrides !! cls = Some rule ->
  (cls ∉ _invalid_operations) /\ operation_registry !! cls = Some rule.
Proof.
  intros Hov.
  assert (Hvalid : cls ∉ _invalid_operations).
  { intros Hin. apply overrides_not_invalid in Hin. congruence. }
  split; [exact Hvalid |]. apply registry_override; assumption.
Qed.

Lemma overrides_all_registered_witness :
  @operation_registry padded_core !! "HexDigest" = Some _hexdigest.
Proof.
  apply (proj2 (@overrides_all_registered padded_core "HexDigest" _hexdigest
                  eq_refl)).
Defined.

(** X2: a lookup in the final registry finds nothing for a kind of the
    denylist, and otherwise the rule of the MSSQL dictionary, or else that of
    the window-function registry, or else that of the base registry. *)
Theorem registry_lookup `{Core} (cls : string) :
  operation_registry !! cls =
    if bool_decide (cls ∈ _invalid_operations) then None
    else match mssql_overrides !! cls with
         | Some rule => Some rule
         | None =>
             match sqlalchemy_window_functions_registry !! cls with
             | Some rule => Some rule
             | None => sqlalchemy_operation_registry !! cls
             end
         end.
Proof.
  unfold operation_registry, operation_registry_updated, dict_update.
  case_bool_decide as Hin.
  - apply map_lookup_filter_None. right. intros rule _ Hkeep. exact (Hkeep Hin).
  - assert (Hfilter : forall m : gmap string Lowering,
             (filter (fun kv => kv.1 ∉ _invalid_operations) m) !! cls
             = m !! cls).
    { intros m. destruct (m !! cls) as [rule |] eqn:Hm.
      - apply map_lookup_filter_Some. split; [exact Hm | exact Hin].
      - apply map_lookup_filter_None. left. exact Hm. }
    rewrite Hfilter.
    destruct (mssql_overrides !! cls) as [rule |] eqn:Hov.
    + apply lookup_union_Some_l. exact Hov.
    + rewrite lookup_union_r by exact Hov.
      destruct (sqlalchemy_window_functions_registry !! cls) as [rule |] eqn:Hw.
      * apply lookup_union_Some_l. exact Hw.
      * apply lookup_union_r. exact Hw.
Qed.

(** ** Hashing, epochs, deltas and extraction *)

(** X3: [HexDigest] fails exactly when [HashBytes] fails on the same
    operand and algorithm, with the same exception, and otherwise wraps the
    very clause [HashBytes] emits in [lower(convert(VARCHAR(MAX), _, 2))]. *)
Theorem hexdigest_wraps_hashbytes (t : ExprTranslator) (arg : Node)
    (how : string) :
  _hexdigest t (HexDigest arg how)
    = (fun hashbinary =>
         FunctionCall "lower"
           [FunctionCall "convert"
              [LiteralColumn "VARCHAR(MAX)"; hashbinary;
               BindParameter (PyInt 2)]])
      <$> _hashbytes t (HashBytes arg how).
Proof.
  unfold _hexdigest, _hashbytes. cbn.
  destruct (translate t arg) as [x | e]; [| reflexivity]. cbn.
  destruct (String.eqb how "md5" || String.eqb how "sha1"); [reflexivity |].
  destruct (String.eqb how "sha256"); [reflexivity |].
  destruct (String.eqb how "sha512"); reflexivity.
Qed.

(** X4: the rule registered for [TimestampFromUNIX] supports the units "s"
    and "ms" only: once the operand is translated it raises
    [UnsupportedOperationError] for every other unit, and for the two it
    adds seconds to the epoch, the milliseconds divided by 1000, the unit
    of [dateadd] being verbatim text and the epoch a bound parameter. *)
Theorem timestamp_from_unix_units `{Core} (t : ExprTranslator) (arg : Node)
    (unit : string) (x : ClauseElement) :
  translate t arg = Ok x ->
  operation_registry !! "TimestampFromUNIX" = Some timestamp_from_unix_rule /\
  (unit = "s" ->
     timestamp_from_unix_rule t (TimestampFromUNIX arg unit)
       = Ok (FunctionCall "dateadd"
               [TextClause "s"; x;
                BindParameter (PyStr "1970-01-01 00:00:00")])) /\
  (unit = "ms" ->
     timestamp_from_unix_rule t (TimestampFromUNIX arg unit)
       = Ok (FunctionCall "dateadd"
               [TextClause "s";
                BinaryExpression op_truediv x (BindParameter (PyInt 1000));
                BindParameter (PyStr "1970-01-01 00:00:00")])) /\
  (unit <> "s" -> unit <> "ms" ->
     timestamp_from_unix_rule t (TimestampFromUNIX arg unit)
       = Raise UnsupportedOperationError).
Proof.
  intros Hx. split.
  - apply registry_override; [reflexivity | apply not_invalid; reflexivity].
  - unfold timestamp_from_unix_rule, _timestamp_from_unix. rewrite Hx. cbn.
    repeat split.
    + intros ->. reflexivity.
    + intros ->. reflexivity.
    + intros Hs Hms. apply String.eqb_neq in Hs, Hms. rewrite Hs, Hms.
      reflexivity.
Qed.

Lemma timestamp_from_unix_units_witness :
  timestamp_from_unix_rule (column_translator false)
     (TimestampFromUNIX (TableColumn "epoch" int8) "us")
    = Raise UnsupportedOperationError
  /\ timestamp_from_unix_rule (column_translator false)
     (TimestampFromUNIX (TableColumn "epoch" int8) "ms")
    = Ok (FunctionCall "dateadd"
            [TextClause "s";
             BinaryExpression op_truediv (ColumnClause "epoch")
               (BindParameter (PyInt 1000));
             BindParameter (PyStr "1970-01-01 00:00:00")]).
Proof.
  split.
  - apply (proj2 (proj2 (proj2
      (@timestamp_from_unix_units plain_core (column_translator false)
         (TableColumn "epoch" int8) "us" (ColumnClause "epoch") eq_refl))));
      discriminate.
  - apply (proj1 (proj2 (proj2
      (@timestamp_from_unix_units plain_core (column_translator false)
         (TableColumn "epoch" int8) "ms" (ColumnClause "epoch") eq_refl)))).
    reflexivity.
Defined.





(** X6: the rules translate their operand first: when the translation of
    the operand raises, [_not], [_timestamp_truncate], [_hashbytes],
    [_hexdigest], [_round], [_string_find] and the rule of
    [TimestampFromUNIX] raise the same exception, whatever the unit or the
    algorithm, so that an unsupported unit or algorithm is only reported
    for an operand that translates. *)
Theorem operand_error_first (t : ExprTranslator) (arg : Node) (e : exn) :
  translate t arg = Raise e ->
  _not t (Not arg) = Raise e /\
  (forall unit,
     _timestamp_truncate t (TimestampTruncate arg unit) = Raise e /\
     _timestamp_truncate t (DateTruncate arg unit) = Raise e /\
     timestamp_from_unix_rule t (TimestampFromUNIX arg unit) = Raise e) /\
  (forall how,
     _hashbytes t (HashBytes arg how) = Raise e /\
     _hexdigest t (HexDigest arg how) = Raise e) /\
  (forall digits, _round t (Round arg digits) = Raise e) /\
  (forall substr start end_,
     _string_find t (StringFind arg substr start end_) = Raise e).
Proof.
  intros He.
  unfold _not, _timestamp_truncate, timestamp_from_unix_rule, _hashbytes,
    _hexdigest, _round, _string_find.
  cbn. rewrite He. repeat split.
Qed.

Lemma operand_error_first_witness :
  _hashbytes failing_translator (HashBytes ts_col "crc32")
    = Raise OperationNotDefinedError
  /\ _timestamp_truncate failing_translator (TimestampTruncate ts_col "ns")
    = Raise OperationNotDefinedError.
Proof.
  split.
  - apply (proj1 (proj2 (proj2
      (operand_error_first failing_translator ts_col
         OperationNotDefinedError eq_refl))) "crc32").
  - apply (proj1 (proj2
      (operand_error_first failing_translator ts_col
         OperationNotDefinedError eq_refl)) "ns").
Defined.

(** X7: the nine kinds of [extract_parts] are registered with [_extract] on
    their date part; on an operation with one argument, once it is
    translated, the rule emits [CAST(datepart(part, arg) AS SMALLINT)] with
    the part verbatim; on any other number of arguments it raises
    [ValueError] without translating anything. *)
Theorem extract_lowering `{Core} (t : ExprTranslator) (cls fmt : string) :
  In (cls, fmt) extract_parts ->
  operation_registry !! cls = Some (_extract fmt) /\
  (forall arg x,
     translate t arg = Ok x ->
     _extract fmt t (Op cls [arg])
       = Ok (SaCast (FunctionCall "datepart" [LiteralColumn fmt; x])
               SMALLINT)) /\
  (forall args,
     List.length args <> 1%nat ->
     _extract fmt t (Op cls args) = Raise ValueError).
Proof.
  intros Hin. split; [| split].
  - unfold extract_parts in Hin. simpl in Hin.
    repeat (destruct Hin as [Hin | Hin];
            [inversion Hin; subst;
             apply registry_override;
             [reflexivity | apply not_invalid; reflexivity] |]).
    destruct Hin.
  - intros arg x Hx. unfold _extract. cbn. rewrite Hx. reflexivity.
  - intros args Hlen. unfold _extract. cbn.
    destruct args as [| a [| b rest]]; [reflexivity | | reflexivity].
    cbn in Hlen. congruence.
Qed.

Lemma extract_lowering_witness :
  _extract "iso_week" (column_translator false) (Op "ExtractWeekOfYear" [ts_col])
    = Ok (SaCast (FunctionCall "datepart"
                    [LiteralColumn "iso_week"; ColumnClause "ts"])
            SMALLINT)
  /\ _extract "iso_week" failing_translator (Op "ExtractWeekOfYear" [])
    = Raise ValueError.
Proof.
  split.
  - apply (proj1 (proj2 (@extract_lowering plain_core
             (column_translator false) "ExtractWeekOfYear" "iso_week"
             ltac:(simpl; tauto))) ts_col (ColumnClause "ts") eq_refl).
  - apply (proj2 (proj2 (@extract_lowering plain_core failing_translator
             "ExtractWeekOfYear" "iso_week" ltac:(simpl; tauto))) []).
    discriminate.
Defined.

(** ** Literals *)

(** X8: whatever the literal and its type, the only text [_literal] writes
    verbatim into the statement is the constant "0" (of [timefromparts]):
    every part of the value reaches the server as a bound parameter. *)
Theorem literal_binds_value `{Core} (t : ExprTranslator) (op : Node)
    (c : ClauseElement) (text : string) :
  _literal t op = Ok c ->
  In text (verbatim_texts c) ->
  text = "0".
Proof.
  intros Hlit Hin. unfold _literal in Hlit.
  destruct op as [value [k n] | | | | | | | | | | | | | | | | | | | |];
    try discriminate Hlit.
  destruct value, k; cbn in Hlit;
    unfold mbind, result_bind in Hlit;
    repeat match type of Hlit with
           | context [match ?x with _ => _ end] =>
               destruct x eqn:?; cbn in Hlit
           end;
    try discriminate Hlit;
    injection Hlit as <-; cbn in Hin;
    repeat (destruct Hin as [Hin | Hin]; [congruence |]);
    try destruct Hin.
Qed.

Lemma literal_binds_value_witness :
  @_literal plain_core (column_translator false)
     (Literal (PyTime 23 59 58 7) {| kind := Time; nullable := true |})
    = Ok (FunctionCall "timefromparts"
            [bind_int 23; bind_int 59; bind_int 58; bind_int 7;
             LiteralColumn "0"])
  /\ "0" = "0".
Proof.
  split; [reflexivity |].
  apply (@literal_binds_value plain_core (column_translator false)
           (Literal (PyTime 23 59 58 7) {| kind := Time; nullable := true |})
           (FunctionCall "timefromparts"
              [bind_int 23; bind_int 59; bind_int 58; bind_int 7;
               LiteralColumn "0"])
           "0" eq_refl).
  simpl. tauto.
Defined.



Lemma offset_parts_bounds (off : Z) :
  timedelta (-1) 0 0 < off < timedelta 1 0 0 ->
  -24 < fst (offset_parts off) < 24 /\
  0 <= snd (offset_parts off) < 100 /\
  (Z.abs off mod 1000000 = 0 -> snd (offset_parts off) < 60) /\
  (off <= 0 -> fst (offset_parts off) <= 0) /\
  (0 <= off -> 0 <= fst (offset_parts off)).
Proof.
  change (timedelta (-1) 0 0) with (-86400000000).
  change (timedelta 1 0 0) with 86400000000.
  intros Hr. unfold offset_parts. cbn [fst snd].
  rewrite (quot_signed off 3600000000) by lia.
  set (a := Z.abs off). assert (Ha : 0 <= a < 86400000000) by (subst a; lia).
  assert (Hh : 0 <= a / 3600000000 < 24).
  { split; [apply Z.div_pos; lia | apply Z.div_lt_upper_bound; lia]. }
  assert (Hu : 0 <= a mod 1000000 mod 100 < 100)
    by (apply Z.mod_pos_bound; lia).
  assert (Hs : 0 <= a mod 60000000 / 1000000 < 60).
  { pose proof (Z.mod_pos_bound a 60000000 ltac:(lia)).
    split; [apply Z.div_pos; lia | apply Z.div_lt_upper_bound; lia]. }
  assert (Hm : 0 <= a mod 3600000000 / 60000000 < 60).
  { pose proof (Z.mod_pos_bound a 3600000000 ltac:(lia)).
    split; [apply Z.div_pos; lia | apply Z.div_lt_upper_bound; lia]. }
  split; [destruct (off <? 0); lia |]. split; [| split; [| split]].
  - destruct (a mod 1000000 =? 0); cbn [negb];
      [destruct (a mod 60000000 / 1000000 =? 0); cbn [negb] |]; lia.
  - intros ->. cbn [Z.eqb negb].
    destruct (a mod 60000000 / 1000000 =? 0); cbn [negb]; lia.
  - intros Hs0. destruct (Z.ltb_spec off 0); [lia |].
    assert (off = 0) as -> by lia. subst a. reflexivity.
  - intros Hs0. destruct (Z.ltb_spec off 0); lia.
Qed.

Lemma literal_timestamp_parts `{Core} (t : ExprTranslator) (v : datetime)
    (tz : string) (nullable : bool) (off : Z) :
  timedelta (-1) 0 0 < off < timedelta 1 0 0 ->
  _literal t (Literal (PyDatetime (at_offset v off))
                {| kind := Timestamp (Some tz); nullable := nullable |})
    = Ok (FunctionCall "datetimeoffsetfromparts"
            [BindParameter (PyInt (year v)); BindParameter (PyInt (month v));
             BindParameter (PyInt (day v)); BindParameter (PyInt (hour v));
             BindParameter (PyInt (minute v));
             BindParameter (PyInt (second v));
             BindParameter (PyInt (microsecond v));
             BindParameter (PyInt (fst (offset_parts off)));
             BindParameter (PyInt (snd (offset_parts off)));
             BindParameter (PyInt 6)]).
Proof.
  intros Hrange. pose proof (parsed_offset_parts off Hrange) as Hp.
  destruct (offset_parts off) as [ph pm].
  unfold parsed_offset in Hp. cbn -[strftime_z].
  destruct (strftime_z (Some off)) as [offset | e]; [| discriminate Hp].
  cbn in Hp |- *.
  destruct (py_int (slice_to 3 offset)) as [h | e]; [| discriminate Hp].
  cbn in Hp |- *.
  destruct (py_int (slice_last 2 offset)) as [m | e]; [| discriminate Hp].
  cbn in Hp |- *. injection Hp as <- <-. reflexivity.
Qed.

(** X10: in the lowering of a timestamp with timezone, the sign of the UTC
    offset is carried by the hour offset alone: the minute offset is never
    negative (it is below 60 for an offset of whole seconds and below 100
    otherwise), whatever the offset, and two values that differ only by the
    sign of an offset of less than one hour lower to the same clause. *)
Theorem literal_offset_sign `{Core} (t : ExprTranslator) (v : datetime)
    (tz : string) (nullable : bool) (off : Z) :
  timedelta (-1) 0 0 < off < timedelta 1 0 0 ->
  let ty := {| kind := Timestamp (Some tz); nullable := nullable |} in
  (exists h m,
     _literal t (Literal (PyDatetime (at_offset v off)) ty)
       = Ok (FunctionCall "datetimeoffsetfromparts"
               [BindParameter (PyInt (year v));
                BindParameter (PyInt (month v));
                BindParameter (PyInt (day v));
                BindParameter (PyInt (hour v));
                BindParameter (PyInt (minute v));
                BindParameter (PyInt (second v));
                BindParameter (PyInt (microsecond v));
                BindParameter (PyInt h); BindParameter (PyInt m);
                BindParameter (PyInt 6)]) /\
     -24 < h < 24 /\ 0 <= m < 100 /\
     (Z.abs off mod 1000000 = 0 -> m < 60) /\
     (off <= 0 -> h <= 0) /\ (0 <= off -> 0 <= h)) /\
  (timedelta 0 (-3600) 0 < off < timedelta 0 3600 0 ->
   _literal t (Literal (PyDatetime (at_offset v off)) ty)
     = _literal t (Literal (PyDatetime (at_offset v (- off))) ty)).
Proof.
  intros Hr ty. split.
  - exists (fst (offset_parts off)), (snd (offset_parts off)).
    split; [apply literal_timestamp_parts; exact Hr |].
    apply offset_parts_bounds. exact Hr.
  - change (timedelta (-1) 0 0) with (-86400000000) in Hr.
    change (timedelta 1 0 0) with 86400000000 in Hr.
    change (timedelta 0 (-3600) 0) with (-3600000000).
    change (timedelta 0 3600 0) with 3600000000.
    intros Hsub. subst ty.
    rewrite (literal_timestamp_parts t v tz nullable off),
      (literal_timestamp_parts t v tz nullable (- off));
      try (change (timedelta (-1) 0 0) with (-86400000000);
           change (timedelta 1 0 0) with 86400000000; lia).
    unfold offset_parts.
    rewrite !(quot_signed _ 3600000000), Z.abs_opp by lia.
    rewrite (Z.div_small (Z.abs off) 3600000000) by lia.
    destruct (off <? 0), (- off <? 0); reflexivity.
Qed.

Lemma literal_offset_sign_witness :
  @_literal plain_core (column_translator false)
     (Literal (PyDatetime (at_offset (noon None) (timedelta 0 (-1800) 0)))
        timestamp_tz)
    = @_literal plain_core (column_translator false)
        (Literal (PyDatetime (at_offset (noon None) (timedelta 0 1800 0)))
           timestamp_tz).
Proof.
  apply (proj2 (@literal_offset_sign plain_core (column_translator false)
                  (noon None) "Asia/Kolkata" true (timedelta 0 (-1800) 0)
                  ltac:(cbv; split; reflexivity))).
  cbv. split; reflexivity.
Defined.

(** The temporal literals without timezone: a date literal lowers to [datefromparts] on the year, month and
    day of its value, a time literal to [timefromparts] on its four
    components and a verbatim 0, and a timestamp literal whose type has no
    timezone to [datetime2fromparts] on its seven components and the
    precision 6, without any offset, whether or not the value has a
    [tzinfo]; a datetime under a date or a time type gives its date or time
    part. *)
Theorem literal_temporal `{Core} (t : ExprTranslator) (nullable : bool) :
  (forall y m d,
     _literal t (Literal (PyDate y m d) {| kind := Date; nullable := nullable |})
       = Ok (FunctionCall "datefromparts" [bind_int y; bind_int m; bind_int d])) /\
  (forall h m s us,
     _literal t (Literal (PyTime h m s us)
                   {| kind := Time; nullable := nullable |})
       = Ok (FunctionCall "timefromparts"
               [bind_int h; bind_int m; bind_int s; bind_int us;
                LiteralColumn "0"])) /\
  (forall v,
     _literal t (Literal (PyDatetime v)
                   {| kind := Timestamp None; nullable := nullable |})
       = Ok (FunctionCall "datetime2fromparts"
               [bind_int (year v); bind_int (month v); bind_int (day v);
                bind_int (hour v); bind_int (minute v); bind_int (second v);
                bind_int (microsecond v); bind_int 6]) /\
     _literal t (Literal (PyDatetime v)
                   {| kind := Date; nullable := nullable |})
       = _literal t (Literal (PyDate (year v) (month v) (day v))
                       {| kind := Date; nullable := nullable |}) /\
     _literal t (Literal (PyDatetime v)
                   {| kind := Time; nullable := nullable |})
       = _literal t (Literal
                       (PyTime (hour v) (minute v) (second v) (microsecond v))
                       {| kind := Time; nullable := nullable |})).
Proof. repeat split. Qed.

(** * Properties of the other pandas kernels *)

(** ** Slices *)

Lemma slice_bound_range (n i : Z) :
  0 <= n -> 0 <= slice_bound n i <= n.
Proof. intros Hn. unfold slice_bound. destruct (Z.ltb_spec i 0); lia. Qed.

Lemma py_slice_length (l : list PyValue) (start : Z) (stop : option Z) :
  let n := Z.of_nat (List.length l) in
  let lo := slice_bound n start in
  let hi := match stop with Some s => slice_bound n s | None => n end in
  Z.of_nat (List.length (py_slice l start stop)) = Z.max 0 (hi - lo).
Proof.
  intros n lo hi. unfold py_slice. fold n. fold lo. fold hi.
  rewrite length_take, length_drop.
  pose proof (slice_bound_range n start ltac:(lia)) as Hlo. fold lo in Hlo.
  assert (Hhi : 0 <= hi <= n).
  { subst hi. destruct stop; [apply slice_bound_range |]; lia. }
  fold n. lia.
Qed.

(** X11: a slice of an array never fails and is a run of consecutive
    elements of the array: [ArraySlice] returns the elements from the lower
    bound up to the upper bound, each bound counted from the end when
    negative and clipped to the array, so that the length of the result is
    the distance between the bounds, or 0 when they cross, and never more
    than the length of the array; on a column the kernel slices each array
    in the same way. *)
Theorem array_slice_bounds (data : list PyValue) (start : Z)
    (stop : option Z) :
  let n := execute_array_length_scalar data in
  let lo := slice_bound n start in
  let hi := match stop with Some s => slice_bound n s | None => n end in
  let r := execute_array_slice_scalar data start stop in
  execute_array_length_scalar r = Z.max 0 (hi - lo) /\
  execute_array_length_scalar r <= n /\
  (exists before after,
     data = (before ++ r ++ after)%list /\
     Z.of_nat (List.length before) = lo) /\
  (forall cells : list (list PyValue),
     execute_array_slice (PyList <$> cells) start stop
       = Ok ((fun l => PyList (execute_array_slice_scalar l start stop))
             <$> cells)).
Proof.
  intros n lo hi r.
  pose proof (py_slice_length data start stop) as Hlen. cbv zeta in Hlen.
  pose proof (slice_bound_range n start ltac:(subst n;
    unfold execute_array_length_scalar; lia)) as Hlo. fold lo in Hlo.
  assert (Hhi : 0 <= hi <= n).
  { subst hi. destruct stop; [apply slice_bound_range |];
      subst n; unfold execute_array_length_scalar; lia. }
  unfold execute_array_length_scalar in *.
  split; [exact Hlen |]. split; [subst r; unfold execute_array_slice_scalar;
    rewrite Hlen; subst n; lia |]. split.
  - exists (take (Z.to_nat lo) data),
           (drop (Z.to_nat (hi - lo)) (drop (Z.to_nat lo) data)).
    split.
    + subst r. unfold execute_array_slice_scalar, py_slice.
      fold n. fold lo. fold hi.
      rewrite take_drop. rewrite take_drop. reflexivity.
    + rewrite length_take. subst n. lia.
  - intros cells. unfold execute_array_slice, series_apply.
    induction cells as [| l rest IH]; [reflexivity |].
    cbn [fmap list_fmap mapM py_getslice].
    change (Ok ?x ≫= ?f) with (f x). cbv beta.
    cbn [fmap list_fmap] in IH. rewrite IH. reflexivity.
Qed.

(** X12: cutting an array at any integer position loses nothing: the slice
    up to [k] followed by the slice from [k] is the array, also for a
    negative [k] and for a [k] beyond either end. *)
Theorem array_slice_split (data : list PyValue) (k : Z) :
  (execute_array_slice_scalar data 0 (Some k)
     ++ execute_array_slice_scalar data k None)%list = data.
Proof.
  unfold execute_array_slice_scalar, py_slice.
  set (n := Z.of_nat (List.length data)).
  pose proof (slice_bound_range n k ltac:(lia)) as Hk.
  assert (H0 : slice_bound n 0 = 0) by (unfold slice_bound; cbn; lia).
  rewrite H0. cbn [Z.to_nat drop]. rewrite Z.sub_0_r.
  rewrite (take_ge (drop (Z.to_nat (slice_bound n k)) data))
    by (rewrite length_drop; subst n; lia).
  apply take_drop.
Qed.

Lemma array_slice_split_example :
  execute_array_slice_scalar [PyInt 1; PyInt 2; PyInt 3] 0 (Some (-1))
    = [PyInt 1; PyInt 2]
  /\ execute_array_slice_scalar [PyInt 1; PyInt 2; PyInt 3] (-1) None
    = [PyInt 3]
  /\ execute_array_slice_scalar [PyInt 1; PyInt 2; PyInt 3] 7 (Some 9) = [].
Proof. repeat split. Qed.

(** X13: for an index within the array other than -1, the slice from the
    index to the next one is the one-element array of what [ArrayIndex]
    returns there; for the index -1 the slice from -1 to 0 is empty, whereas
    [ArrayIndex] returns the last element. *)
Theorem array_slice_index (data : list PyValue) (i : Z) :
  let n := Z.of_nat (List.length data) in
  (- n <= i < n -> i <> -1 ->
   exists x,
     execute_array_index_scalar data i = Ok x /\
     execute_array_slice_scalar data i (Some (i + 1)) = [x]) /\
  execute_array_slice_scalar data (-1) (Some 0) = [] /\
  (data <> [] ->
   exists x,
     execute_array_index_scalar data (-1) = Ok x /\
     last data = Some x).
Proof.
  intros n. split; [| split].
  - intros Hr Hne.
    destruct (py_getitem_in_range data i Hr) as (x & Hx & Hget). fold n in Hx.
    exists x. split.
    + unfold execute_array_index_scalar. rewrite Hget. reflexivity.
    + unfold execute_array_slice_scalar, py_slice. fold n.
      assert (Hlo : slice_bound n i = if i <? 0 then i + n else i).
      { unfold slice_bound. destruct (Z.ltb_spec i 0); lia. }
      assert (Hhi : slice_bound n (i + 1) = slice_bound n i + 1).
      { unfold slice_bound.
        destruct (Z.ltb_spec i 0), (Z.ltb_spec (i + 1) 0); lia. }
      rewrite Hhi, <- Hlo in *.
      replace (slice_bound n i + 1 - slice_bound n i) with 1 by lia.
      rewrite (drop_S _ _ _ Hx). reflexivity.
  - unfold execute_array_slice_scalar, py_slice. fold n.
    replace (Z.to_nat (slice_bound n 0 - slice_bound n (-1))) with 0%nat;
      [reflexivity |].
    unfold slice_bound. cbn. lia.
  - intros Hne.
    assert (Hr : - n <= -1 < n).
    { subst n. destruct data; [congruence | cbn; lia]. }
    destruct (py_getitem_in_range data (-1) Hr) as (x & Hx & Hget).
    fold n in Hx. exists x. split.
    + unfold execute_array_index_scalar. rewrite Hget. reflexivity.
    + rewrite last_lookup. rewrite <- Hx. f_equal.
      change (-1 <? 0) with true. cbv iota. lia.
Qed.

Lemma array_slice_index_witness :
  execute_array_slice_scalar [PyInt 10; PyInt 20; PyInt 30] (-2) (Some (-1))
    = [PyInt 20]
  /\ execute_array_index_scalar [PyInt 10; PyInt 20; PyInt 30] (-2)
    = Ok (PyInt 20).
Proof.
  destruct (proj1 (array_slice_index [PyInt 10; PyInt 20; PyInt 30] (-2))
              ltac:(cbn; lia) ltac:(lia)) as (x & Hindex & Hslice).
  assert (Hx : x = PyInt 20) by (injection Hslice as <-; reflexivity).
  subst x. split; [exact Hslice | exact Hindex].
Defined.

(** ** Repetition *)





(** ** Concatenation *)

Lemma mapM_result_fmap {A B} (f : A -> result B) (g : A -> B) (l : list A) :
  (forall x, In x l -> f x = Ok (g x)) -> mapM f l = Ok (g <$> l).
Proof.
  induction l as [| x rest IH]; intros Hf; [reflexivity |].
  cbn [mapM fmap list_fmap]. rewrite (Hf x (or_introl eq_refl)).
  change (Ok ?y ≫= ?k) with (k y). cbv beta.
  cbn [fmap list_fmap] in IH. rewrite IH; [reflexivity |].
  intros y Hy. apply Hf. right. exact Hy.
Qed.

Lemma mapM_result_error {A B} (f : A -> result B) (l : list A) (e : exn) :
  mapM f l = Raise e -> exists x, In x l /\ f x = Raise e.
Proof.
  induction l as [| x rest IH]; intros Hm; [discriminate Hm |].
  cbn [mapM] in Hm. destruct (f x) as [y | e'] eqn:Hfx.
  - change (Ok y ≫= ?k) with (k y) in Hm. cbv beta in Hm.
    destruct (mapM f rest) as [ys | e''] eqn:Hrest; [discriminate Hm |].
    injection Hm as ->. destruct (IH eq_refl) as (z & Hz & Hfz).
    exists z. split; [right; exact Hz | exact Hfz].
  - injection Hm as ->. exists x. split; [left; reflexivity | exact Hfx].
Qed.

Lemma zip_rows_pairs (first second : list PyValue) :
  List.length second = List.length first ->
  zip_rows first [second]
    = zip_with (fun x y => [x; y]) first second.
Proof.
  revert second. induction first as [| x first' IH]; intros second Hlen.
  - destruct second; [reflexivity | discriminate Hlen].
  - destruct second as [| y second']; [discriminate Hlen |].
    cbn [zip_rows mapM head fmap list_fmap tail zip_with].
    cbn. rewrite IH by (cbn in Hlen; lia). reflexivity.
Qed.

Lemma np_concatenate_error (args : list PyValue) (e : exn) :
  np_concatenate args = Raise e -> e = ValueError.
Proof.
  unfold np_concatenate. intros He.
  destruct (mapM as_array args) as [arrays | e'] eqn:Hm; [discriminate He |].
  injection He as ->. apply mapM_result_error in Hm as (x & _ & Hx).
  destruct x; cbn in Hx; congruence.
Qed.

Lemma concat_series_rows (rows : list (list PyValue * list PyValue)) :
  _concat_iterables_to_series ((fun r => PyList r.1) <$> rows)
    [(fun r => PyList r.2) <$> rows]
  = Ok ((fun r => PyList (execute_array_concat_scalar r.1 r.2 [])) <$> rows).
Proof.
  unfold _concat_iterables_to_series. cbn [forallb].
  rewrite !length_fmap, Nat.eqb_refl. cbn [andb].
  rewrite zip_rows_pairs by (rewrite !length_fmap; reflexivity).
  induction rows as [| [a b] rest IH]; [reflexivity |].
  cbn [fmap list_fmap zip_with mapM fst snd].
  cbn [fmap list_fmap] in IH.
  change (np_concatenate [PyList a; PyList b])
    with (Ok (PyList (execute_array_concat_scalar a b []))).
  change (Ok ?y ≫= ?k) with (k y). cbv beta.
  rewrite IH. reflexivity.
Qed.

(** X15: [ArrayConcat] on two columns fails the assertion when the columns
    differ in length, whatever they hold; on columns of one-dimensional
    arrays of the same length it returns, row by row, the array of the first
    column followed by that of the second, and as many rows as the columns
    have; any other failure is a [ValueError], raised for a cell that is not
    an array. *)
Theorem array_concat_series (first second : list PyValue) :
  (List.length second <> List.length first ->
   execute_array_concat_series first second [] = Raise AssertionError) /\
  (forall rows : list (list PyValue * list PyValue),
     Forall (fun r => is_flat r.1 = true /\ is_flat r.2 = true) rows ->
     first = (fun r => PyList r.1) <$> rows ->
     second = (fun r => PyList r.2) <$> rows ->
     execute_array_concat_series first second []
       = Ok ((fun r => PyList (execute_array_concat_scalar r.1 r.2 []))
             <$> rows)) /\
  (List.length second = List.length first ->
   forall e, execute_array_concat_series first second [] = Raise e ->
             e = ValueError).
Proof.
  unfold execute_array_concat_series, _concat_iterables_to_series.
  cbn [forallb]. rewrite andb_true_r. split; [| split].
  - intros Hne. apply Nat.eqb_neq in Hne. rewrite Hne. reflexivity.
  - intros rows _ -> ->. pose proof (concat_series_rows rows) as Hrows.
    unfold _concat_iterables_to_series in Hrows. cbn [forallb] in Hrows.
    rewrite andb_true_r in Hrows. exact Hrows.
  - intros Hlen e He. apply Nat.eqb_eq in Hlen. rewrite Hlen in He.
    apply mapM_result_error in He as (row & _ & Hrow).
    apply (np_concatenate_error row e Hrow).
Qed.

Lemma array_concat_series_witness :
  execute_array_concat_series [PyList [PyInt 1]; PyList []]
    [PyList [PyInt 2; PyInt 3]; PyList [PyInt 4]] []
    = Ok [PyList [PyInt 1; PyInt 2; PyInt 3]; PyList [PyInt 4]]
  /\ execute_array_concat_series [PyList [PyInt 1]; PyList []]
       [PyList [PyInt 2; PyInt 3]] []
    = Raise AssertionError.
Proof.
  split.
  - apply (proj1 (proj2 (array_concat_series [PyList [PyInt 1]; PyList []]
             [PyList [PyInt 2; PyInt 3]; PyList [PyInt 4]]))
           [([PyInt 1], [PyInt 2; PyInt 3]); ([], [PyInt 4])]
           ltac:(repeat constructor) eq_refl eq_refl).
  - apply (proj1 (array_concat_series [PyList [PyInt 1]; PyList []]
             [PyList [PyInt 2; PyInt 3]])).
    discriminate.
Defined.






(** ** Flattening *)

Lemma chain_from_iterable_nested (parts : list (list PyValue)) :
  chain_from_iterable (PyList (PyList <$> parts))
    = Ok (PyList (List.concat parts)).
Proof.
  unfold chain_from_iterable. cbn [py_iter].
  change (Ok ?y ≫= ?k) with (k y). cbv beta.
  assert (Hm : mapM py_iter (PyList <$> parts) = Ok parts).
  { induction parts as [| l rest IH]; [reflexivity |].
    cbn [fmap list_fmap mapM py_iter].
    change (Ok ?y ≫= ?k) with (k y). cbv beta.
    cbn [fmap list_fmap] in IH. rewrite IH. reflexivity. }
  rewrite Hm. reflexivity.
Qed.

Lemma concat_singletons (l : list PyValue) :
  List.concat ((fun x => [x]) <$> l) = l.
Proof.
  induction l as [| x rest IH]; [reflexivity |].
  cbn [fmap list_fmap List.concat]. cbn [fmap] in IH. rewrite IH.
  reflexivity.
Qed.

(** X18: on a column whose cells are null or arrays of arrays,
    [ArrayFlatten] never fails; it leaves the null cells null and in place
    and replaces every other cell by the arrays it holds put end to end, so
    that the column keeps its number of rows; flattening an array of
    one-element arrays gives back the array of the elements. *)
Theorem array_flatten (cells : list (option (list (list PyValue)))) :
  execute_array_flatten (nested_cell <$> cells)
    = Ok ((fun c => match c with
                    | None => PyNone
                    | Some parts => PyList (List.concat parts)
                    end) <$> cells) /\
  (forall l : list PyValue,
     execute_array_flatten [PyList ((fun x => PyList [x]) <$> l)]
       = Ok [PyList l]).
Proof.
  split.
  - unfold execute_array_flatten, series_map_ignore_na.
    induction cells as [| c rest IH]; [reflexivity |].
    cbn [fmap list_fmap mapM]. cbn [fmap list_fmap] in IH.
    destruct c as [parts |]; cbn [nested_cell].
    + rewrite chain_from_iterable_nested.
      change (Ok ?y ≫= ?k) with (k y). cbv beta. rewrite IH. reflexivity.
    + change (Ok ?y ≫= ?k) with (k y). cbv beta. rewrite IH. reflexivity.
  - intros l. unfold execute_array_flatten, series_map_ignore_na.
    cbn [mapM].
    replace ((fun x => PyList [x]) <$> l)
      with (PyList <$> ((fun x => [x]) <$> l))
      by (rewrite <- list_fmap_compose; reflexivity).
    rewrite chain_from_iterable_nested, concat_singletons. reflexivity.
Qed.

Lemma mapM_result_raises {A B} (f : A -> result B) (l : list A) (x : A)
    (err : exn) :
  (forall y e, f y = Raise e -> e = err) ->
  In x l -> f x = Raise err -> mapM f l = Raise err.
Proof.
  intros Hkind Hin Hx. induction l as [| y rest IH]; [destruct Hin |].
  cbn [mapM]. destruct (f y) as [b | e] eqn:Hy.
  - change (Ok b ≫= ?k) with (k b). cbv beta.
    destruct Hin as [-> | Hin]; [congruence |].
    rewrite (IH Hin). reflexivity.
  - rewrite (Hkind y e Hy). reflexivity.
Qed.

Lemma py_iter_error (v : PyValue) (e : exn) :
  py_iter v = Raise e -> e = TypeError.
Proof. destruct v; cbn; congruence. Qed.

Lemma flatten_cell_error (v : PyValue) (e : exn) :
  match v with PyNone => Ok PyNone | _ => chain_from_iterable v end = Raise e ->
  e = TypeError.
Proof.
  assert (Hchain : forall w, chain_from_iterable w = Raise e -> e = TypeError).
  { intros w Hw. unfold chain_from_iterable in Hw.
    destruct (py_iter w) as [elements | e1] eqn:Hit.
    - change (Ok elements ≫= ?k) with (k elements) in Hw. cbv beta in Hw.
      destruct (mapM py_iter elements) as [parts | e2] eqn:Hparts;
        [discriminate Hw |].
      injection Hw as ->.
      apply mapM_result_error in Hparts as (x & _ & Hx).
      apply (py_iter_error x e Hx).
    - injection Hw as ->. apply (py_iter_error w e Hit). }
  destruct v; try apply Hchain. discriminate.
Qed.

(** X19: [ArrayFlatten] fails with [TypeError] and nothing else, and it
    does so as soon as one array of the column has an element that cannot
    be iterated over, such as a number: the arrays of the column must be
    arrays of arrays. *)
Theorem array_flatten_errors (data : list PyValue) :
  (forall e, execute_array_flatten data = Raise e -> e = TypeError) /\
  (forall l x,
     In (PyList l) data -> In x l -> py_iter x = Raise TypeError ->
     execute_array_flatten data = Raise TypeError).
Proof.
  unfold execute_array_flatten, series_map_ignore_na. split.
  - intros e He. apply mapM_result_error in He as (v & _ & Hv).
    apply (flatten_cell_error v e Hv).
  - intros l x Hl Hx Hiter.
    apply (mapM_result_raises _ data (PyList l) TypeError);
      [apply flatten_cell_error | exact Hl |].
    unfold chain_from_iterable. cbn [py_iter].
    change (Ok l ≫= ?k) with (k l). cbv beta.
    rewrite (mapM_result_raises py_iter l x TypeError py_iter_error Hx Hiter).
    reflexivity.
Qed.

Lemma array_flatten_errors_witness :
  execute_array_flatten [PyNone; PyList [PyInt 1; PyInt 2]] = Raise TypeError.
Proof.
  apply (proj2 (array_flatten_errors [PyNone; PyList [PyInt 1; PyInt 2]])
           [PyInt 1; PyInt 2] (PyInt 2)).
  - simpl. tauto.
  - simpl. tauto.
  - reflexivity.
Defined.

(** X20: on a column with a null cell, [ArrayLength], [ArraySlice] and
    [ArrayIndex] raise [TypeError], whatever the bounds and the index and
    whatever the other cells hold. *)
Theorem array_kernels_null_cell (data : list PyValue) :
  In PyNone data ->
  execute_array_length data = Raise TypeError /\
  (forall start stop, execute_array_slice data start stop = Raise TypeError) /\
  (forall index, execute_array_index data index = Raise TypeError).
Proof.
  intros Hnull. split; [| split].
  - unfold execute_array_length, series_apply.
    apply (mapM_result_raises _ data PyNone TypeError);
      [| exact Hnull | reflexivity].
    intros y e Hy. destruct y; cbn in Hy; congruence.
  - intros start stop. unfold execute_array_slice, series_apply.
    apply (mapM_result_raises _ data PyNone TypeError);
      [| exact Hnull | reflexivity].
    intros y e Hy. destruct y; cbn in Hy; congruence.
  - intros index. unfold execute_array_index, series_apply.
    apply (mapM_result_raises _ data PyNone TypeError);
      [| exact Hnull | reflexivity].
    intros y e Hy. destruct y as [| | | | | l | | | | |];
      try (cbn in Hy; congruence).
    change (index_cell index (PyList l) = Raise e) in Hy.
    rewrite index_cell_spec in Hy. discriminate Hy.
Qed.

Lemma array_kernels_null_cell_witness :
  execute_array_index [PyList [PyInt 1]; PyNone] 0 = Raise TypeError
  /\ execute_array_length [PyList [PyInt 1]; PyNone] = Raise TypeError.
Proof.
  split.
  - apply (proj2 (proj2
      (array_kernels_null_cell [PyList [PyInt 1]; PyNone]
         ltac:(simpl; tauto)))).
  - apply (proj1 (array_kernels_null_cell [PyList [PyInt 1]; PyNone]
                    ltac:(simpl; tauto))).
Defined.

(** * Negation of a null operand *)

(** X21: on an operand that is null on the server, the negation emitted
    within a predicate is null, as in three-valued logic, but the
    conditional emitted elsewhere is false (0): outside a predicate the
    negation of null is not null. *)
Theorem not_null_operand (t : ExprTranslator) (arg : Node)
    (a : ClauseElement) (srv : Server) :
  translate t arg = Ok a ->
  sql_eval srv a = Some VNull ->
  exists c,
    _not t (Not arg) = Ok c /\
    sql_eval srv c = Some (if within_where t then VNull else VInt 0).
Proof.
  intros Ha Hnull. unfold _not. rewrite Ha.
  change (Ok a ≫= ?k) with (k a). cbv beta.
  destruct (within_where t); eexists; (split; [reflexivity |]);
    cbn; rewrite Hnull; reflexivity.
Qed.

Lemma not_null_operand_witness :
  exists c,
    _not (column_translator false) (Not flag_col) = Ok c /\
    sql_eval null_server c = Some (VInt 0).
Proof.
  apply (not_null_operand (column_translator false) flag_col
           (ColumnClause "flag") null_server eq_refl eq_refl).
Defined.
